(** * notion-db-sync: a shallow embedding of [notion-db-sync.py]

    The script copies pages of a "master" Notion database into a "slave"
    database.  The values it handles are what the Notion client hands back
    after JSON decoding, so they are modelled dynamically, as Python has
    them; every builtin operation the script applies to such a value is
    written out together with the exception it raises on a value of the
    wrong shape.  The Notion client itself is a collaborator: each call is
    answered by a function of the history of the interaction. *)

From Stdlib Require Import ZArith String Ascii List Floats Lia.
From stdpp Require Import base option list gmap strings pretty.

Local Open Scope string_scope.
Local Open Scope Z_scope.

(** ** Python values *)

(** A decoded JSON document.  A [PyDict] keeps its items in insertion order;
    a key is looked up from the front.  One [ascii] stands for one character
    of a Python [str]. *)
#[warnings="-register-all"]
Inductive pyval : Type :=
| PyNone
| PyBool (b : bool)
| PyInt (z : Z)
| PyFloat (f : float)
| PyStr (s : string)
| PyList (l : list pyval)
| PyDict (d : list (string * pyval)).

(** The exceptions the script can meet.  [ValueError] is the one it raises
    itself; [KeyError], [TypeError] and [AttributeError] come from the
    interpreter; [APIError] stands for whatever else the client raises. *)
Inductive exn : Type :=
| ValueError (msg : string)
| KeyError (key : string)
| TypeError
| AttributeError
| APIError (msg : string).

Inductive result (A : Type) : Type :=
| Ok (a : A)
| Raise (e : exn).
Arguments Ok {A} a.
Arguments Raise {A} e.

Definition rbind {A B : Type} (r : result A) (k : A -> result B) : result B :=
  match r with
  | Ok a => k a
  | Raise e => Raise e
  end.

Declare Scope result_scope.
Delimit Scope result_scope with result.
Notation "'let?' x ':=' r 'in' k" := (rbind r (fun x => k))
  (at level 10, x pattern, r at level 100, k at level 200) : result_scope.
Local Open Scope result_scope.

Fixpoint rmap {A B : Type} (f : A -> result B) (l : list A) : result (list B) :=
  match l with
  | [] => Ok []
  | a :: l' =>
      let? b := f a in
      let? bs := rmap f l' in
      Ok (b :: bs)
  end.

(** *** Builtins *)

Fixpoint dict_get (k : string) (d : list (string * pyval)) : option pyval :=
  match d with
  | [] => None
  | (k', v) :: d' => if String.eqb k' k then Some v else dict_get k d'
  end.

(** [bool(v)] *)
Definition py_truthy (v : pyval) : bool :=
  match v with
  | PyNone => false
  | PyBool b => b
  | PyInt z => negb (z =? 0)
  | PyFloat f => negb (PrimFloat.eqb f PrimFloat.zero)
  | PyStr s => negb (String.eqb s "")
  | PyList l => match l with [] => false | _ => true end
  | PyDict d => match d with [] => false | _ => true end
  end.

(** [v == s] for a string literal [s] *)
Definition py_eq_str (v : pyval) (s : string) : bool :=
  match v with
  | PyStr t => String.eqb t s
  | _ => false
  end.

Definition py_is_none (v : pyval) : bool :=
  match v with
  | PyNone => true
  | _ => false
  end.

(** [v[k]] for a string key [k] *)
Definition py_getitem (v : pyval) (k : string) : result pyval :=
  match v with
  | PyDict d =>
      match dict_get k d with
      | Some x => Ok x
      | None => Raise (KeyError k)
      end
  | _ => Raise TypeError
  end.

(** [v.get(k, default)] *)
Definition py_get (v : pyval) (k : string) (default : pyval) : result pyval :=
  match v with
  | PyDict d =>
      match dict_get k d with
      | Some x => Ok x
      | None => Ok default
      end
  | _ => Raise AttributeError
  end.

Fixpoint is_prefix (p s : string) : bool :=
  match p, s with
  | EmptyString, _ => true
  | String a p', String b s' => Ascii.eqb a b && is_prefix p' s'
  | String _ _, EmptyString => false
  end.

Fixpoint is_substring (p s : string) : bool :=
  is_prefix p s ||
  match s with
  | EmptyString => false
  | String _ s' => is_substring p s'
  end.

(** [k in v] for a string [k]: a key of a dict, an element of a list, a
    substring of a string. *)
Definition py_contains (k : string) (v : pyval) : result bool :=
  match v with
  | PyDict d => Ok (match dict_get k d with Some _ => true | None => false end)
  | PyList l => Ok (existsb (fun x => py_eq_str x k) l)
  | PyStr s => Ok (is_substring k s)
  | _ => Raise TypeError
  end.

Fixpoint chars (s : string) : list pyval :=
  match s with
  | EmptyString => []
  | String a s' => PyStr (String a EmptyString) :: chars s'
  end.

(** What [for item in v] ranges over. *)
Definition py_iter (v : pyval) : result (list pyval) :=
  match v with
  | PyList l => Ok l
  | PyStr s => Ok (chars s)
  | PyDict d => Ok (map (fun kv => PyStr (fst kv)) d)
  | _ => Raise TypeError
  end.

(** [len(v)] *)
Definition py_len (v : pyval) : result Z :=
  match v with
  | PyList l => Ok (Z.of_nat (length l))
  | PyStr s => Ok (Z.of_nat (String.length s))
  | PyDict d => Ok (Z.of_nat (length d))
  | _ => Raise TypeError
  end.

(** ["".join(items)]: every item has to be a string. *)
Fixpoint py_join (items : list pyval) : result string :=
  match items with
  | [] => Ok ""
  | PyStr s :: items' =>
      let? rest := py_join items' in
      Ok (s ++ rest)
  | _ :: _ => Raise TypeError
  end.

(** [", ".join(names)] on a list of strings *)
Fixpoint join_names (names : list string) : string :=
  match names with
  | [] => ""
  | [n] => n
  | n :: names' => n ++ ", " ++ join_names names'
  end.

(** How many items [v[:n]] keeps of the [len] items of [v]: a negative [n]
    counts from the end. *)
Definition slice_stop (len : nat) (n : Z) : nat :=
  if 0 <=? n then Z.to_nat n else Z.to_nat (Z.of_nat len + n).

(** [v[:n]] *)
Definition py_slice_to (v : pyval) (n : Z) : result pyval :=
  match v with
  | PyList l => Ok (PyList (firstn (slice_stop (length l) n) l))
  | PyStr s => Ok (PyStr (substring 0 (slice_stop (String.length s) n) s))
  | _ => Raise TypeError
  end.

(** ** Reading and writing property values *)

(** [item["text"]["content"]] *)
Definition segment_content (item : pyval) : result pyval :=
  let? text := py_getitem item "text" in
  py_getitem text "content".

(** ["".join(item["text"]["content"] for item in items)]: the generator is
    run to its end before [join] looks at the types of what it produced. *)
Definition join_segments (items : pyval) : result pyval :=
  let? its := py_iter items in
  let? contents := rmap segment_content its in
  let? s := py_join contents in
  Ok (PyStr s).

(** [data.get("start") if data else None], also used for [.get("name")] *)
Definition get_if_set (data : pyval) (k : string) : result pyval :=
  if py_truthy data then py_get data k PyNone else Ok PyNone.

Definition extract_formula (formula_data : pyval) : result pyval :=
  let? has_string := py_contains "string" formula_data in
  if has_string then py_get formula_data "string" PyNone else
  let? has_number := py_contains "number" formula_data in
  if has_number then py_get formula_data "number" PyNone else
  let? has_boolean := py_contains "boolean" formula_data in
  if has_boolean then py_get formula_data "boolean" PyNone else
  let? has_date := py_contains "date" formula_data in
  if has_date then
    let? date_data := py_get formula_data "date" PyNone in
    get_if_set date_data "start"
  else Ok PyNone.

Definition extract_property_value (page : pyval) (property_name : string)
  : result pyval :=
  let? properties := py_getitem page "properties" in
  let? present := py_contains property_name properties in
  if negb present then Ok PyNone else
  let? prop := py_getitem properties property_name in
  let? prop_type := py_getitem prop "type" in
  if py_eq_str prop_type "title" then
    let? title_items := py_get prop "title" (PyList []) in
    if negb (py_truthy title_items) then Ok (PyStr "")
    else join_segments title_items
  else if py_eq_str prop_type "rich_text" then
    let? rich_text_items := py_get prop "rich_text" (PyList []) in
    if negb (py_truthy rich_text_items) then Ok (PyStr "")
    else join_segments rich_text_items
  else if py_eq_str prop_type "number" then
    py_get prop "number" PyNone
  else if py_eq_str prop_type "select" then
    let? select_data := py_get prop "select" PyNone in
    get_if_set select_data "name"
  else if py_eq_str prop_type "multi_select" then
    let? selected := py_get prop "multi_select" (PyList []) in
    let? items := py_iter selected in
    let? names := rmap (fun item => py_getitem item "name") items in
    Ok (PyList names)
  else if py_eq_str prop_type "date" then
    let? date_data := py_get prop "date" PyNone in
    get_if_set date_data "start"
  else if py_eq_str prop_type "url" then
    py_get prop "url" PyNone
  else if py_eq_str prop_type "email" then
    py_get prop "email" PyNone
  else if py_eq_str prop_type "phone_number" then
    py_get prop "phone_number" PyNone
  else if py_eq_str prop_type "checkbox" then
    py_get prop "checkbox" PyNone
  else if py_eq_str prop_type "formula" then
    let? formula_data := py_get prop "formula" (PyDict []) in
    extract_formula formula_data
  else Ok PyNone.

(** [{"type": "text", "text": {"content": content}}] *)
Definition text_object (content : string) : pyval :=
  PyDict [("type", PyStr "text"); ("text", PyDict [("content", PyStr content)])].

(** ** The collaborator and the effects of a run *)

(** The four operations of the Notion client the script calls, with the
    arguments it passes. *)
Inductive call : Type :=
| DatabasesQuery (database_id : pyval) (query : gmap string pyval)
| DatabasesRetrieve (database_id : pyval)
| PagesCreate (parent : pyval) (properties : gmap string pyval)
| PagesUpdate (page_id : pyval) (properties : pyval).

(** A call together with what came back: a value or an exception. *)
Record event : Type := Event { ev_call : call; ev_outcome : result pyval }.

(** What a run leaves behind: the calls it made, in order, and the lines it
    printed. *)
Record world : Type := World { trace : list event; stdout : list string }.

Definition M (A : Type) : Type := world -> result A * world.

Definition ret {A : Type} (a : A) : M A := fun w => (Ok a, w).

Definition raise {A : Type} (e : exn) : M A := fun w => (Raise e, w).

Definition lift {A : Type} (r : result A) : M A := fun w => (r, w).

Definition bind {A B : Type} (m : M A) (k : A -> M B) : M B :=
  fun w =>
    match m w with
    | (Ok a, w') => k a w'
    | (Raise e, w') => (Raise e, w')
    end.

Declare Scope run_scope.
Delimit Scope run_scope with run.
Notation "'let!' x ':=' m 'in' k" := (bind m (fun x => k))
  (at level 10, x pattern, m at level 100, k at level 200) : run_scope.
Local Open Scope run_scope.

Definition print (line : string) : M unit :=
  fun w => (Ok tt, {| trace := trace w; stdout := stdout w ++ [line] |}).

(** [try: body  except ValueError as e: on_value_error(e)
     except Exception as e: on_exception(e)] *)
Definition try_except {A : Type} (body : M A)
    (on_value_error on_exception : exn -> M A) : M A :=
  fun w =>
    match body w with
    | (Ok a, w') => (Ok a, w')
    | (Raise (ValueError msg), w') => on_value_error (ValueError msg) w'
    | (Raise e, w') => on_exception e w'
    end.

(** *** Constants and small expressions of the script *)

Definition eligibility_filter : pyval :=
  PyDict [("and", PyList [
    PyDict [("property", PyStr "Sync Status");
            ("select", PyDict [("equals", PyStr "Not Synced")])];
    PyDict [("property", PyStr "Sync?");
            ("select", PyDict [("equals", PyStr "True")])]])].

Definition properties_to_sync : list string :=
  ["Name"; "Impressions"; "Likes"; "Bookmarks"; "Retweets"; "Comments"; "CTR";
   "URL"; "Author"; "Handle"; "Date"; "Retention"; "Engagement Rate"; "Niche"].

(** [{"Sync Status": {"select": {"name": status}}}] *)
Definition status_properties (status : string) : pyval :=
  PyDict [("Sync Status", PyDict [("select", PyDict [("name", PyStr status)])])].

(** [pages.extend(more)] *)
Definition py_extend (pages more : pyval) : result pyval :=
  match pages with
  | PyList l =>
      let? items := py_iter more in
      Ok (PyList (l ++ items))
  | _ => Raise AttributeError
  end.

(** [value is None or value == "" or (isinstance(value, list) and
    len(value) == 0)] *)
Definition is_blank (value : pyval) : bool :=
  py_is_none value || py_eq_str value "" ||
  match value with
  | PyList [] => true
  | _ => false
  end.

(** [{name: prop["type"] for name, prop in items}] *)
Fixpoint collect_types (items : list (string * pyval))
    (acc : gmap string pyval) : result (gmap string pyval) :=
  match items with
  | [] => Ok acc
  | (name, prop) :: items' =>
      let? type := py_getitem prop "type" in
      collect_types items' (<[name := type]> acc)
  end.

Section Interpreter.

(** The text Python prints for a value that is not a string, and the text of
    an exception the script did not raise itself, are the interpreter's and
    the client's: they are taken as given. *)
Variable py_repr : pyval -> string.
Variable exn_message : exn -> string.

(** [str(v)] *)
Definition py_str (v : pyval) : string :=
  match v with
  | PyStr s => s
  | _ => py_repr v
  end.

(** [str(e)] *)
Definition exn_str (e : exn) : string :=
  match e with
  | ValueError msg => msg
  | _ => exn_message e
  end.

Definition create_property_object (property_name : string) (value : pyval)
    (property_type : pyval) : result pyval :=
  if py_eq_str property_type "title" then
    Ok (PyDict [("title",
          PyList [text_object (if py_truthy value then py_str value else "")])])
  else if py_eq_str property_type "rich_text" then
    Ok (PyDict [("rich_text",
          PyList [text_object (if py_truthy value then py_str value else "")])])
  else if py_eq_str property_type "number" then
    Ok (PyDict [("number", if negb (py_is_none value) then value else PyNone)])
  else if py_eq_str property_type "select" then
    if py_truthy value then Ok (PyDict [("select", PyDict [("name", value)])])
    else Ok (PyDict [("select", PyNone)])
  else if py_eq_str property_type "multi_select" then
    if py_truthy value then
      let? items := py_iter value in
      Ok (PyDict [("multi_select",
            PyList (map (fun item => PyDict [("name", item)]) items))])
    else Ok (PyDict [("multi_select", PyList [])])
  else if py_eq_str property_type "date" then
    if py_truthy value then Ok (PyDict [("date", PyDict [("start", value)])])
    else Ok (PyDict [("date", PyNone)])
  else if py_eq_str property_type "url" then
    Ok (PyDict [("url", if py_truthy value then value else PyNone)])
  else if py_eq_str property_type "checkbox" then
    Ok (PyDict [("checkbox",
          if negb (py_is_none value) then value else PyBool false)])
  else Ok PyNone.

(** The Notion client: the answer to a call may depend on everything that
    happened before it. *)
Variable notion : list event -> call -> result pyval.

Definition api (c : call) : M pyval :=
  fun w =>
    let r := notion (trace w) c in
    (r, {| trace := trace w ++ [Event c r]; stdout := stdout w |}).

(** ** [get_master_pages] *)

Definition initial_query (limit : option Z) : gmap string pyval :=
  let query := {[ "filter" := eligibility_filter ]} in
  match limit with
  | Some n => <["page_size" := PyInt (Z.min n 100)]> query
  | None => query
  end.

(** Where the [while] loop stands: about to test its condition, or left. *)
Inductive loop_state : Type :=
| Looping (query : gmap string pyval) (response pages : pyval)
| Finished (pages : pyval).

(** [response.get("has_more", False) and
     (limit is None or len(pages) < limit)] *)
Definition loop_condition (limit : option Z) (response pages : pyval)
  : result bool :=
  let? has_more := py_get response "has_more" (PyBool false) in
  if py_truthy has_more then
    match limit with
    | None => Ok true
    | Some n =>
        let? len := py_len pages in
        Ok (len <? n)
    end
  else Ok false.

(** One test of the condition and, when it holds, one run of the body. *)
Definition loop_step (db_id : pyval) (limit : option Z)
    (query : gmap string pyval) (response pages : pyval) : M loop_state :=
  let! continue := lift (loop_condition limit response pages) in
  if negb continue then ret (Finished pages) else
  let! cursor := lift (py_get response "next_cursor" PyNone) in
  let query := <["start_cursor" := cursor]> query in
  let! response := api (DatabasesQuery db_id query) in
  let! results := lift (py_get response "results" (PyList [])) in
  let! pages := lift (py_extend pages results) in
  match limit with
  | Some n =>
      let! len := lift (py_len pages) in
      if n <=? len then
        let! pages := lift (py_slice_to pages n) in
        ret (Finished pages)
      else ret (Looping query response pages)
  | None => ret (Looping query response pages)
  end.

Fixpoint run_loop (fuel : nat) (db_id : pyval) (limit : option Z)
    (st : loop_state) (w : world) : option (result pyval * world) :=
  match st with
  | Finished pages => Some (Ok pages, w)
  | Looping query response pages =>
      match fuel with
      | O => None
      | S fuel' =>
          match loop_step db_id limit query response pages w with
          | (Ok st', w') => run_loop fuel' db_id limit st' w'
          | (Raise e, w') => Some (Raise e, w')
          end
      end
  end.

Definition get_master_pages (fuel : nat) (db_id : pyval) (limit : option Z)
    (w : world) : option (result pyval * world) :=
  let query := initial_query limit in
  match (let! response := api (DatabasesQuery db_id query) in
         let! pages := lift (py_get response "results" (PyList [])) in
         ret (Looping query response pages)) w with
  | (Raise e, w') => Some (Raise e, w')
  | (Ok st, w') =>
      match run_loop fuel db_id limit st w' with
      | None => None
      | Some (Raise e, w'') => Some (Raise e, w'')
      | Some (Ok pages, w'') =>
          Some ((let! len := lift (py_len pages) in
                 let! _ := print ("Total pages retrieved: " ++ pretty len) in
                 ret pages) w'')
      end
  end.

(** ** [map_property_types] *)

Definition map_property_types (db_id : pyval) : M (gmap string pyval) :=
  let! db_info := api (DatabasesRetrieve db_id) in
  let! properties := lift (py_getitem db_info "properties") in
  match properties with
  | PyDict items => lift (collect_types items ∅)
  | _ => raise AttributeError
  end.

(** ** [sync_page] *)

(** One turn of the loop over [properties_to_sync]. *)
Definition sync_field (master_page : pyval)
    (property_types : gmap string pyval) (prop_name : string)
    (new_properties : gmap string pyval) (missing_properties : list string)
  : result (gmap string pyval * list string) :=
  let? properties := py_getitem master_page "properties" in
  let? present := py_contains prop_name properties in
  if negb present
  then Ok (new_properties, (missing_properties ++ [prop_name])%list)
  else
  let? value := extract_property_value master_page prop_name in
  if is_blank value
  then Ok (new_properties, (missing_properties ++ [prop_name])%list)
  else
  if String.eqb prop_name "Name" &&
     match property_types !! "Name" with
     | Some type => py_eq_str type "title"
     | None => false
     end
  then
    let? object := create_property_object "Name" value (PyStr "title") in
    Ok (<["Name" := object]> new_properties, missing_properties)
  else
    match property_types !! prop_name with
    | Some type =>
        let? object := create_property_object prop_name value type in
        Ok (<[prop_name := object]> new_properties, missing_properties)
    | None => Ok (new_properties, missing_properties)
    end.

Fixpoint sync_fields (master_page : pyval)
    (property_types : gmap string pyval) (names : list string)
    (new_properties : gmap string pyval) (missing_properties : list string)
  : result (gmap string pyval * list string) :=
  match names with
  | [] => Ok (new_properties, missing_properties)
  | prop_name :: names' =>
      let? (new_properties, missing_properties) :=
        sync_field master_page property_types prop_name
                   new_properties missing_properties in
      sync_fields master_page property_types names'
                  new_properties missing_properties
  end.

(** [f"Missing or empty required properties: {', '.join(missing)}"] *)
Definition missing_message (missing_properties : list string) : string :=
  "Missing or empty required properties: " ++ join_names missing_properties.

Definition sync_page (master_page slave_db_id : pyval)
    (property_types : gmap string pyval) : M pyval :=
  let! (new_properties, missing_properties) :=
    lift (sync_fields master_page property_types properties_to_sync ∅ []) in
  match missing_properties with
  | [] =>
      api (PagesCreate (PyDict [("database_id", slave_db_id)]) new_properties)
  | _ :: _ =>
      raise (ValueError (missing_message missing_properties))
  end.

(** ** [update_sync_status] *)

Definition update_sync_status (page_id : pyval) (status : string) : M unit :=
  let! _ := api (PagesUpdate page_id (status_properties status)) in
  ret tt.

(** ** [main] *)

(** [extract_property_value(page, "Name") or f"Page {i}"] *)
Definition page_name_or_default (i : nat) (name : pyval) : pyval :=
  if py_truthy name then name else PyStr ("Page " ++ pretty i).

(** [f"Syncing page {i}/{len(pages_to_sync)}: {page_name}"] *)
Definition syncing_line (i : nat) (total : Z) (page_name : pyval) : string :=
  "Syncing page " ++ pretty i ++ "/" ++ pretty total ++ ": "
  ++ py_str page_name.

(** The body of the [try] for the [i]-th page. *)
Definition sync_attempt (i : nat) (pages_to_sync page slave_db_id : pyval)
    (slave_property_types : gmap string pyval) : M unit :=
  let! name := lift (extract_property_value page "Name") in
  let page_name := page_name_or_default i name in
  let! total := lift (py_len pages_to_sync) in
  let! _ := print (syncing_line i total page_name) in
  let! new_page := sync_page page slave_db_id slave_property_types in
  let! page_id := lift (py_getitem page "id") in
  let! _ := update_sync_status page_id "Synced" in
  print "Successfully synced page.".

(** The body of either [except] clause; they differ in the first line they
    print. *)
Definition mark_failed (headline : string) (page : pyval) (e : exn) : M unit :=
  let! _ := print (headline ++ exn_str e) in
  let! page_id := lift (py_getitem page "id") in
  let! _ := update_sync_status page_id "Failed" in
  print "Marked page as Failed and continuing with next page.".

(** One turn of the loop over the pages to sync. *)
Definition process_page (i : nat) (pages_to_sync page slave_db_id : pyval)
    (slave_property_types : gmap string pyval) : M unit :=
  try_except
    (sync_attempt i pages_to_sync page slave_db_id slave_property_types)
    (mark_failed "Failed to sync page - " page)
    (mark_failed "Error syncing page: " page).

Fixpoint process_pages (i : nat) (pages_to_sync : pyval) (pages : list pyval)
    (slave_db_id : pyval) (slave_property_types : gmap string pyval) : M unit :=
  match pages with
  | [] => ret tt
  | page :: pages' =>
      let! _ := process_page i pages_to_sync page slave_db_id
                             slave_property_types in
      process_pages (S i) pages_to_sync pages' slave_db_id slave_property_types
  end.

(** [main], from the point where the environment and the command line have
    been read: [limit] is [args.limit], the two ids are the ones of the
    environment. *)
Definition main (fuel : nat) (limit : option Z)
    (master_db_id slave_db_id : pyval) (w : world)
  : option (result unit * world) :=
  match map_property_types slave_db_id w with
  | (Raise e, w1) => Some (Raise e, w1)
  | (Ok slave_property_types, w1) =>
      match get_master_pages fuel master_db_id limit w1 with
      | None => None
      | Some (Raise e, w2) => Some (Raise e, w2)
      | Some (Ok pages_to_sync, w2) =>
          Some
            ((if negb (py_truthy pages_to_sync)
              then print "No pages need to be synced."
              else
                let! total := lift (py_len pages_to_sync) in
                let! _ := print ("Found " ++ pretty total
                                 ++ " pages to sync.") in
                let! pages := lift (py_iter pages_to_sync) in
                let! _ := process_pages 1 pages_to_sync pages slave_db_id
                                        slave_property_types in
                let! total := lift (py_len pages_to_sync) in
                print ("Sync completed. " ++ pretty total
                       ++ " pages processed.")) w2)
      end
  end.

End Interpreter.

(** ** [load_environment] *)

(** How the start of the script ends: with a value, or with the exit code
    handed to [sys.exit]. *)
Inductive startup (A : Type) : Type :=
| Started (a : A)
| Exited (code : Z).
Arguments Started {A} a.
Arguments Exited {A} code.

Definition required_vars : list string :=
  ["NOTION_API_KEY"; "MASTER_DB_ID"; "SLAVE_DB_ID"].

(** [os.getenv(var)], on the environment as [load_dotenv()] has left it. *)
Definition getenv (environ : gmap string string) (var : string) : pyval :=
  match environ !! var with
  | Some value => PyStr value
  | None => PyNone
  end.

(** [[var for var in required_vars if not os.getenv(var)]] *)
Definition missing_vars (environ : gmap string string) : list string :=
  List.filter (fun var => negb (py_truthy (getenv environ var))) required_vars.

Definition load_environment (environ : gmap string string) (w : world)
  : startup pyval * world :=
  match missing_vars environ with
  | [] =>
      (Started (PyDict [("api_key", getenv environ "NOTION_API_KEY");
                        ("master_db_id", getenv environ "MASTER_DB_ID");
                        ("slave_db_id", getenv environ "SLAVE_DB_ID")]),
       w)
  | missing =>
      (Exited 1,
       {| trace := trace w;
          stdout :=
            (stdout w ++
             ["Error: The following required environment variables are missing: "
              ++ join_names missing]) ++
            ["Please add them to your .env file"] |})
  end.

(** ** Vocabulary of the statements *)

(** The calls made between two points of a run. *)
Definition issued (w w' : world) : list event :=
  drop (length (trace w)) (trace w').

(** The call [update_sync_status] makes. *)
Definition mark (page_id : pyval) (status : string) : call :=
  PagesUpdate page_id (status_properties status).

(** The call [sync_page] makes. *)
Definition create_in (slave_db_id : pyval) (properties : gmap string pyval)
  : call :=
  PagesCreate (PyDict [("database_id", slave_db_id)]) properties.

(** The first line the [except] clause that catches [e] prints. *)
Definition failure_headline (e : exn) : string :=
  match e with
  | ValueError _ => "Failed to sync page - "
  | _ => "Error syncing page: "
  end.

(** A required field counts as missing when what is extracted for it is
    [None], the empty string or the empty list. *)
Definition is_missing (page : pyval) (name : string) : bool :=
  match extract_property_value page name with
  | Ok value => is_blank value
  | Raise _ => false
  end.

(** One page of results as [databases.query] answers it; [get_master_pages]
    reads the three keys [results], [has_more] and [next_cursor]. *)
Record query_page : Type :=
  QueryPage { results : list pyval; has_more : bool; next_cursor : pyval }.

Definition response_of (p : query_page) : pyval :=
  PyDict [("object", PyStr "list"); ("results", PyList (results p));
          ("next_cursor", next_cursor p); ("has_more", PyBool (has_more p))].

(** A sequence of pages that announces a next page on every page but the
    last. *)
Fixpoint chained (p : query_page) (rest : list query_page) : bool :=
  match rest with
  | [] => negb (has_more p)
  | q :: rest' => has_more p && chained q rest'
  end.

(** From [w] on, the collaborator answers the successive queries of the
    database [db] with the pages [ps], in order. *)
Definition serves (notion : list event -> call -> result pyval) (db : pyval)
    (w : world) (ps : list query_page) : Prop :=
  forall (j : nat) p,
    ps !! j = Some p ->
    forall h query,
      length h = (length (trace w) + j)%nat ->
      notion h (DatabasesQuery db query) = Ok (response_of p).

(** The results of all the pages, in the order they are fetched. *)
Definition all_results (ps : list query_page) : list pyval :=
  concat (map results ps).

(** A query that carries the eligibility filter of the script. *)
Definition filtered_query (db : pyval) (ev : event) : Prop :=
  exists query,
    ev_call ev = DatabasesQuery db query /\
    query !! "filter" = Some eligibility_filter.

(** A raw value the encoder can produce under a tag: what stands under the
    key [tag] in the object [create_property_object] returns for some
    value. *)
Definition representable (py_repr : pyval -> string) (tag : string)
    (x : pyval) : Prop :=
  exists value,
    create_property_object py_repr tag value (PyStr tag)
    = Ok (PyDict [(tag, x)]).

(** The type tags [create_property_object] has a branch for. *)
Definition encoder_tags : list string :=
  ["title"; "rich_text"; "number"; "select"; "multi_select"; "date"; "url";
   "checkbox"].

(** The type tags [extract_property_value] has a branch for. *)
Definition extractor_tags : list string :=
  ["title"; "rich_text"; "number"; "select"; "multi_select"; "date"; "url";
   "email"; "phone_number"; "checkbox"; "formula"].

Definition has_tag (tags : list string) (type : pyval) : bool :=
  existsb (py_eq_str type) tags.

(** What the pass of [sync_page] stores under the name of a field that has a
    value and a destination tag. *)
Definition stored (py_repr : pyval -> string) (page : pyval)
    (pt : gmap string pyval) (n : string) (object : pyval) : Prop :=
  exists value type,
    extract_property_value page n = Ok value /\ is_blank value = false /\
    pt !! n = Some type /\
    create_property_object py_repr n value type = Ok object.

(** What the loop returns when it starts with [acc] collected and the pages
    [rest] still to come. *)
Definition loop_result (limit : option Z) (acc : list pyval)
    (rest : list query_page) : list pyval :=
  match limit with
  | None => (acc ++ all_results rest)%list
  | Some n =>
      if Z.of_nat (length acc) <? n
      then firstn (Z.to_nat n) (acc ++ all_results rest)
      else acc
  end.

(** ** Vocabulary of the further properties *)

(** The status updates the collaborator has accepted, each with the id of the
    page and the properties it sets. *)
Fixpoint accepted_updates (evs : list event) : list (pyval * pyval) :=
  match evs with
  | [] => []
  | Event (PagesUpdate page_id properties) (Ok _) :: evs' =>
      (page_id, properties) :: accepted_updates evs'
  | _ :: evs' => accepted_updates evs'
  end.

(** A call that writes: a creation or an update. *)
Definition is_write (ev : event) : bool :=
  match ev_call ev with
  | PagesCreate _ _ | PagesUpdate _ _ => true
  | DatabasesQuery _ _ | DatabasesRetrieve _ => false
  end.

(** A query as [get_master_pages] builds it for a limit: the filter of the
    script and, exactly when there is a limit, the page size
    [min(limit, 100)]. *)
Definition selecting (limit : option Z) (query : gmap string pyval) : Prop :=
  query !! "filter" = Some eligibility_filter /\
  query !! "page_size" = (fun n => PyInt (Z.min n 100)) <$> limit.

(** A call that is such a query of the database [db]. *)
Definition selection_query (db : pyval) (limit : option Z) (ev : event)
  : Prop :=
  exists query, ev_call ev = DatabasesQuery db query /\ selecting limit query.

(** The values that come back unchanged from an encoding under a tag. *)
Definition kept_by (tag : string) (value : pyval) : bool :=
  if String.eqb tag "title" || String.eqb tag "rich_text" then
    match value with PyStr _ => true | _ => false end
  else if String.eqb tag "number" then true
  else if String.eqb tag "select" || String.eqb tag "date"
          || String.eqb tag "url" then
    py_truthy value || py_is_none value
  else if String.eqb tag "multi_select" then
    match value with PyList _ => true | _ => false end
  else if String.eqb tag "checkbox" then negb (py_is_none value)
  else false.

(** The type tag a property declares, if it does. *)
Definition declared_type (prop : pyval) : option pyval :=
  match py_getitem prop "type" with
  | Ok type => Some type
  | Raise _ => None
  end.

(** A call that writes for a page of the selection: a creation under the
    slave database, or an update of the page's own status to Synced or to
    Failed. *)
Definition page_write (slave page : pyval) (ev : event) : Prop :=
  (exists new, ev_call ev = create_in slave new) \/
  (exists pid status,
     py_getitem page "id" = Ok pid /\ ev_call ev = mark pid status /\
     (status = "Synced" \/ status = "Failed")).

(** ** Sample data *)

(** A rendering of values that are not strings: exact on [None], the
    booleans and the integers. *)
Definition sample_repr (v : pyval) : string :=
  match v with
  | PyNone => "None"
  | PyBool true => "True"
  | PyBool false => "False"
  | PyInt z => pretty z
  | _ => "<value>"
  end.

Definition sample_message (e : exn) : string :=
  match e with
  | ValueError msg => msg
  | KeyError key => "'" ++ key ++ "'"
  | TypeError => "TypeError"
  | AttributeError => "AttributeError"
  | APIError msg => msg
  end.

(** A collaborator that gives the answers of a script, one per call, and
    fails once the script is over. *)
Definition replay (answers : list (result pyval))
  : list event -> call -> result pyval :=
  fun h _ => default (Raise (APIError "no answer")) (answers !! length h).

Definition title_property (segments : list string) : pyval :=
  PyDict [("id", PyStr "title"); ("type", PyStr "title");
          ("title", PyList (map text_object segments))].

Definition rich_text_property (segments : list string) : pyval :=
  PyDict [("id", PyStr "rt"); ("type", PyStr "rich_text");
          ("rich_text", PyList (map text_object segments))].

Definition number_property (n : pyval) : pyval :=
  PyDict [("id", PyStr "nb"); ("type", PyStr "number"); ("number", n)].

Definition select_property (option_name : string) : pyval :=
  PyDict [("id", PyStr "sl"); ("type", PyStr "select");
          ("select", PyDict [("id", PyStr "opt"); ("name", PyStr option_name);
                             ("color", PyStr "blue")])].

Definition url_property (url : string) : pyval :=
  PyDict [("id", PyStr "ul"); ("type", PyStr "url"); ("url", PyStr url)].

Definition date_property (start : string) : pyval :=
  PyDict [("id", PyStr "dt"); ("type", PyStr "date");
          ("date", PyDict [("start", PyStr start); ("end", PyNone);
                           ("time_zone", PyNone)])].

(** The required fields but ["Niche"], with the two fields that select a
    page for syncing; [author] is the text of ["Author"]. *)
Definition fields_by (author : list string) : list (string * pyval) :=
  [("Name", title_property ["Launch "; "thread"]);
   ("Impressions", number_property (PyInt 1200));
   ("Likes", number_property (PyInt 7));
   ("Bookmarks", number_property (PyInt 3));
   ("Retweets", number_property (PyInt 2));
   ("Comments", number_property (PyInt 1));
   ("CTR", number_property (PyFloat 0.0625%float));
   ("URL", url_property "https://example.org/1");
   ("Author", rich_text_property author);
   ("Handle", rich_text_property ["@ada"]);
   ("Date", date_property "2024-05-01");
   ("Retention", number_property (PyFloat 0.5%float));
   ("Engagement Rate", number_property (PyFloat 0.125%float));
   ("Sync Status", select_property "Not Synced");
   ("Sync?", select_property "True")].

Definition page_with (id : string) (fields : list (string * pyval)) : pyval :=
  PyDict [("object", PyStr "page"); ("id", PyStr id);
          ("properties", PyDict fields)].

(** A page with every required field filled in. *)
Definition sample_page : pyval :=
  page_with "page-1" (fields_by ["Ada"] ++ [("Niche", select_property "Tech")]).

(** A page without ["Niche"] and with an empty ["Author"]. *)
Definition incomplete_page : pyval := page_with "page-2" (fields_by []).

(** A page without ["Niche"]. *)
Definition page_without_niche : pyval := page_with "page-3" (fields_by ["Ada"]).

(** A page whose properties are empty or unset, each in its own way. *)
Definition blank_page : pyval :=
  page_with "page-4"
    [("Name", title_property []);
     ("Author", rich_text_property []);
     ("Niche", PyDict [("id", PyStr "sl"); ("type", PyStr "select");
                       ("select", PyNone)]);
     ("Tags", PyDict [("id", PyStr "ms"); ("type", PyStr "multi_select");
                      ("multi_select", PyList [])])].

(** A page whose ["Niche"] is a select as the encoder writes it. *)
Definition encoded_page : pyval :=
  page_with "page-5"
    [("Niche", PyDict [("type", PyStr "select");
                       ("select", PyDict [("name", PyStr "Tech")])])].

Definition schema_of (tags : list (string * string)) : gmap string pyval :=
  list_to_map (map (fun nt => (fst nt, PyStr (snd nt))) tags).

Definition sample_tags : list (string * string) :=
  [("Name", "title"); ("Impressions", "number"); ("Likes", "number");
   ("Bookmarks", "number"); ("Retweets", "number"); ("Comments", "number");
   ("CTR", "number"); ("URL", "url"); ("Author", "rich_text");
   ("Handle", "rich_text"); ("Date", "date"); ("Retention", "number");
   ("Engagement Rate", "number")].

(** A destination schema that keeps ["Niche"] as text, where the source has
    a select. *)
Definition sample_types : gmap string pyval :=
  schema_of (sample_tags ++ [("Niche", "rich_text")]).

(** A destination schema where ["Niche"] is an e-mail address. *)
Definition email_types : gmap string pyval :=
  schema_of (sample_tags ++ [("Niche", "email")]).

(** A destination schema where ["Likes"] is a multi-select, while the source
    has a number. *)
Definition multi_select_types : gmap string pyval :=
  <["Likes" := PyStr "multi_select"]> sample_types.

(** What [databases.retrieve] answers for a database with these tags. *)
Definition database_with (tags : list (string * string)) : pyval :=
  PyDict [("object", PyStr "database");
          ("properties",
           PyDict (map (fun nt => (fst nt,
                                   PyDict [("id", PyStr (fst nt));
                                           ("name", PyStr (fst nt));
                                           ("type", PyStr (snd nt));
                                           (snd nt, PyDict [])]))
                       tags))].

Definition slave_db : pyval := PyStr "slave-db".
Definition master_db : pyval := PyStr "master-db".
Definition empty_world : world := {| trace := []; stdout := [] |}.

(** What [pages.create] and [pages.update] hand back. *)
Definition created_page : pyval :=
  PyDict [("object", PyStr "page"); ("id", PyStr "copy-1")].
Definition updated_page : pyval :=
  PyDict [("object", PyStr "page"); ("id", PyStr "page-1")].

(** The mapping the pass assembles for [sample_page] under [sample_types]. *)
Definition sample_new_properties : gmap string pyval :=
  match sync_fields sample_repr sample_page sample_types
                    properties_to_sync ∅ [] with
  | Ok (new_properties, _) => new_properties
  | Raise _ => ∅
  end.


(** The mapping the pass assembles for [sample_page] under [email_types]. *)
Definition email_new_properties : gmap string pyval :=
  match sync_fields sample_repr sample_page email_types
                    properties_to_sync ∅ [] with
  | Ok (new_properties, _) => new_properties
  | Raise _ => ∅
  end.

(** Two pages of results, the first announcing the second. *)
Definition first_results : query_page :=
  {| results := [sample_page]; has_more := true;
     next_cursor := PyStr "cursor-1" |}.
Definition last_results : query_page :=
  {| results := [incomplete_page; page_without_niche]; has_more := false;
     next_cursor := PyNone |}.

(** One page of two results. *)
Definition long_results : query_page :=
  {| results := [sample_page; incomplete_page]; has_more := false;
     next_cursor := PyNone |}.

Definition timeout : exn := APIError "timeout".

(** A collaborator that answers the schema and the selection, then times
    out. *)
Definition outage : list event -> call -> result pyval :=
  replay [Ok (database_with (sample_tags ++ [("Niche", "rich_text")]));
          Ok (response_of long_results);
          Raise timeout; Raise timeout].

(** ** Further sample data *)

(** A collaborator that accepts every call. *)
Definition obliging : list event -> call -> result pyval :=
  fun _ _ => Ok updated_page.

(** What the collaborator says of the slave database of the samples. *)
Definition sample_database : pyval :=
  database_with (sample_tags ++ [("Niche", "rich_text")]).

(** A collaborator that describes the slave database, answers every query
    with the two pages of [long_results] and accepts every write. *)
Definition steady : list event -> call -> result pyval :=
  fun _ c =>
    match c with
    | DatabasesRetrieve _ => Ok sample_database
    | DatabasesQuery _ _ => Ok (response_of long_results)
    | PagesCreate _ _ => Ok created_page
    | PagesUpdate _ _ => Ok updated_page
    end.

(** A page whose title ends with a mention of a person. *)
Definition mention_page : pyval :=
  page_with "page-6"
    [("Name",
      PyDict [("id", PyStr "title"); ("type", PyStr "title");
              ("title",
               PyList [text_object "Thanks ";
                       PyDict [("type", PyStr "mention");
                               ("mention", PyDict [("type", PyStr "user")]);
                               ("plain_text", PyStr "@Ada")];
                       text_object "!"])])].

(** A page with two tags, as the collaborator describes them. *)
Definition tagged_page : pyval :=
  page_with "page-7"
    [("Tags",
      PyDict [("id", PyStr "ms"); ("type", PyStr "multi_select");
              ("multi_select",
               PyList [PyDict [("id", PyStr "o1"); ("name", PyStr "Tech");
                               ("color", PyStr "blue")];
                       PyDict [("id", PyStr "o2"); ("name", PyStr "News");
                               ("color", PyStr "red")]])])].

(** A page that names its author as a person of the workspace. *)
Definition people_page : pyval :=
  page_with "page-8"
    [("Name", title_property ["Launch thread"]);
     ("Author",
      PyDict [("id", PyStr "pp"); ("type", PyStr "people");
              ("people", PyList [PyDict [("object", PyStr "user");
                                         ("id", PyStr "user-1")]])])].

(** A destination schema that shares two names with the required fields and
    has one field of its own. *)
Definition partial_types : gmap string pyval :=
  schema_of [("Name", "title"); ("Likes", "number"); ("Reviewed", "checkbox")].

(** The mapping the pass assembles for [sample_page] under
    [partial_types]. *)
Definition partial_new_properties : gmap string pyval :=
  match sync_fields sample_repr sample_page partial_types
                    properties_to_sync ∅ [] with
  | Ok (new_properties, _) => new_properties
  | Raise _ => ∅
  end.

(** A response that holds nothing but its kind. *)
Definition silent_response : list (string * pyval) :=
  [("object", PyStr "list")].

(** The properties of [sample_database], as the collaborator lists them. *)
Definition sample_database_properties : list (string * pyval) :=
  match py_getitem sample_database "properties" with
  | Ok (PyDict items) => items
  | _ => []
  end.

(** A collaborator that answers the selection in two pages. *)
Definition paged : list event -> call -> result pyval :=
  replay [Ok (response_of first_results); Ok (response_of last_results)].

(** A page of the selection that holds no record. *)
Definition no_results : query_page :=
  {| results := []; has_more := false; next_cursor := PyNone |}.

(** A collaborator that describes the slave database and finds nothing to
    select. *)
Definition idle : list event -> call -> result pyval :=
  replay [Ok sample_database; Ok (response_of no_results)].

(** A call of [sync_page] on [sample_page] with a collaborator that accepts
    the creation. *)
Definition sample_run : result pyval * world :=
  sync_page sample_repr steady sample_page slave_db sample_types empty_world.

(** A run with [steady]: the world once the schema has been fetched, and the
    world once the selection has returned. *)
Definition schema_fetched : world :=
  {| trace := [Event (DatabasesRetrieve slave_db) (Ok sample_database)];
     stdout := [] |}.

Definition selected : world :=
  {| trace := [Event (DatabasesRetrieve slave_db) (Ok sample_database);
               Event (DatabasesQuery master_db (initial_query None))
                     (Ok (response_of long_results))];
     stdout := ["Total pages retrieved: 2"] |}.

(** A collaborator that announces a further page on every response. *)
Definition endless : list event -> call -> result pyval :=
  fun _ _ => Ok (response_of first_results).

(** A collaborator that answers the first query of the selection and times
    out on the second. *)
Definition interrupted : list event -> call -> result pyval :=
  replay [Ok (response_of first_results); Raise timeout].

(** * Properties *)

(** Membership in a list given in full. *)
Ltac in_list := apply list_elem_of_In; simpl; tauto.
Ltac not_in_list := rewrite list_elem_of_In; simpl; intuition discriminate.

Section Properties.

Variable py_repr : pyval -> string.
Variable exn_message : exn -> string.
Variable notion : list event -> call -> result pyval.

(** ** Builtins *)

Lemma py_eq_str_true (v : pyval) (s : string) :
  py_eq_str v s = true -> v = PyStr s.
Proof.
  destruct v; simpl; try discriminate.
  intros H. apply String.eqb_eq in H. now subst.
Qed.

Lemma py_eq_str_refl (s : string) : py_eq_str (PyStr s) s = true.
Proof. simpl. apply String.eqb_refl. Qed.

Lemma append_empty (s : string) : (s ++ "")%string = s.
Proof.
  induction s as [|a s IH]; [reflexivity|].
  change (String a (s ++ "") = String a s). now f_equal.
Qed.

Lemma issued_app (w w' : world) (evs : list event) :
  trace w' = (trace w ++ evs)%list -> issued w w' = evs.
Proof. unfold issued. intros ->. apply drop_app_length. Qed.

Lemma issued_refl (w w' : world) : trace w' = trace w -> issued w w' = [].
Proof. unfold issued. intros ->. apply drop_all. Qed.

(** ** The pass of [sync_page] over the required fields *)

(** A name that is not a key of the property mapping extracts to [None], so
    the membership test of [sync_page] repeats what the blank test sees; and
    the branch for ["Name"] encodes under the tag the schema holds. *)
Lemma sync_field_unfold (page : pyval) (pt : gmap string pyval) (n : string)
    (new : gmap string pyval) (miss : list string) :
  sync_field py_repr page pt n new miss =
  let? value := extract_property_value page n in
  if is_blank value then Ok (new, (miss ++ [n])%list)
  else
    match pt !! n with
    | Some type =>
        let? object := create_property_object py_repr n value type in
        Ok (<[n := object]> new, miss)
    | None => Ok (new, miss)
    end.
Proof.
  unfold sync_field, extract_property_value.
  destruct (py_getitem page "properties") as [properties|e]; simpl; [|done].
  destruct (py_contains n properties) as [present|e]; simpl; [|done].
  destruct present; simpl; [|done].
  match goal with |- context [rbind ?r _] => destruct r as [value|e] end;
    simpl; [|done].
  destruct (is_blank value); [done|].
  destruct (String.eqb n "Name") eqn:Hn; simpl; [|done].
  apply String.eqb_eq in Hn; subst n.
  destruct (pt !! "Name") as [type|] eqn:Ht; [|done].
  destruct (py_eq_str type "title") eqn:Htitle; [|done].
  apply py_eq_str_true in Htitle. now subst type.
Qed.

Lemma sync_fields_ok (page : pyval) (pt : gmap string pyval)
    (names : list string) :
  forall (new : gmap string pyval) (miss : list string) new' miss',
    sync_fields py_repr page pt names new miss = Ok (new', miss') ->
    miss' = (miss ++ List.filter (is_missing page) names)%list /\
    (forall n, n ∈ names -> exists value, extract_property_value page n = Ok value) /\
    (forall k,
        (exists object, k ∈ names /\ stored py_repr page pt k object /\
                        new' !! k = Some object) \/
        ((k ∉ names \/ is_missing page k = true \/ pt !! k = None) /\
         new' !! k = new !! k)).
Proof.
  induction names as [|n names IH]; intros new miss new' miss' H; simpl in H.
  - inversion H; subst. split; [now rewrite app_nil_r|].
    split; [intros n Hn; inversion Hn|].
    intros k. right. split; [left; apply not_elem_of_nil|done].
  - rewrite sync_field_unfold in H.
    destruct (extract_property_value page n) as [value|e] eqn:Hv;
      simpl in H; [|discriminate].
    assert (Hm : is_missing page n = is_blank value)
      by (unfold is_missing; now rewrite Hv).
    destruct (is_blank value) eqn:Hb.
    + apply IH in H as (-> & Hex & Hk). simpl. rewrite Hm.
      split; [now rewrite <- app_assoc|].
      split.
      { intros n' [->|Hn']%elem_of_cons; eauto. }
      intros k. destruct (Hk k) as [(o & Hin & Hs & Hl)|[Hc Hl]].
      * left. exists o. split; [now apply list_elem_of_further|done].
      * right. split; [|done].
        destruct (decide (k = n)) as [->|Hne]; [now right; left|].
        destruct Hc as [Hc|Hc]; [|now right].
        left. intros [?|?]%elem_of_cons; done.
    + assert (Hstep : exists new1,
                 sync_fields py_repr page pt names new1 miss = Ok (new', miss') /\
                 ((pt !! n = None /\ new1 = new) \/
                  (exists object, stored py_repr page pt n object /\
                                  new1 = <[n := object]> new))).
      { destruct (pt !! n) as [type|] eqn:Ht.
        - destruct (create_property_object py_repr n value type)
            as [object|e] eqn:Hobj; simpl in H; [|discriminate].
          exists (<[n := object]> new). split; [done|]. right.
          exists object. split; [|done]. now exists value, type.
        - exists new. split; [done|]. now left. }
      destruct Hstep as (new1 & Hrun & Hnew1).
      apply IH in Hrun as (-> & Hex & Hk). simpl. rewrite Hm.
      split; [done|].
      split.
      { intros n' [->|Hn']%elem_of_cons; eauto. }
      intros k. destruct (Hk k) as [(o & Hin & Hs & Hl)|[Hc Hl]].
      * left. exists o. split; [now apply list_elem_of_further|done].
      * destruct (decide (k = n)) as [->|Hne].
        -- destruct Hnew1 as [[Hnone ->]|(o & Hs & ->)].
           ++ right. split; [now right; right|done].
           ++ left. exists o. split; [apply list_elem_of_here|].
              split; [done|]. now rewrite Hl, lookup_insert_eq.
        -- right. split.
           ++ destruct Hc as [Hc|Hc]; [|now right].
              left. intros [?|?]%elem_of_cons; done.
           ++ rewrite Hl. destruct Hnew1 as [[_ ->]|(o & _ & ->)]; [done|].
              now rewrite lookup_insert_ne.
Qed.

(** The encoder raises in one situation only: a multi-choice tag and a true
    value that cannot be iterated (a number other than zero, [True]). *)
Lemma create_property_object_raises (name : string) (value type : pyval)
    (e : exn) :
  create_property_object py_repr name value type = Raise e <->
  py_eq_str type "multi_select" = true /\ py_truthy value = true /\
  py_iter value = Raise e.
Proof.
  unfold create_property_object. split.
  - repeat (match goal with
            | |- context [if py_eq_str type ?s then _ else _] =>
                let H := fresh in
                destruct (py_eq_str type s) eqn:H;
                [try (apply py_eq_str_true in H; subst type; simpl)|]
            | |- context [if py_truthy value then _ else _] =>
                destruct (py_truthy value) eqn:?
            end; try discriminate).
    simpl. destruct (py_iter value) eqn:Hi; simpl; [discriminate|].
    intros [= ->]. done.
  - intros (Ht & Hv & Hi). apply py_eq_str_true in Ht. subst type. simpl.
    now rewrite Hv, Hi.
Qed.

Lemma sync_fields_returns (page : pyval) (pt : gmap string pyval)
    (names : list string) :
  (forall n, n ∈ names ->
     exists value, extract_property_value page n = Ok value /\
       (is_blank value = false -> forall type, pt !! n = Some type ->
          exists object,
            create_property_object py_repr n value type = Ok object)) ->
  forall new miss, exists new' miss',
    sync_fields py_repr page pt names new miss = Ok (new', miss').
Proof.
  induction names as [|n names IH]; intros H new miss; simpl; [eauto|].
  rewrite sync_field_unfold.
  destruct (H n) as (value & Hv & Henc); [apply list_elem_of_here|].
  rewrite Hv. simpl.
  assert (IH' := IH (fun n' Hn' => H n' (list_elem_of_further _ _ _ Hn'))).
  destruct (is_blank value); [apply IH'|].
  destruct (pt !! n) as [type|]; [|apply IH'].
  destruct (Henc eq_refl type eq_refl) as [object ->]. simpl. apply IH'.
Qed.

(** ** [sync_page] *)

Lemma sync_page_run (page slave : pyval) (pt : gmap string pyval) (w : world) :
  sync_page py_repr notion page slave pt w =
  match sync_fields py_repr page pt properties_to_sync ∅ [] with
  | Raise e => (Raise e, w)
  | Ok (new, []) =>
      api notion (PagesCreate (PyDict [("database_id", slave)]) new) w
  | Ok (new, m :: ms) =>
      (Raise (ValueError (missing_message (m :: ms))), w)
  end.
Proof.
  unfold sync_page, bind, lift.
  destruct (sync_fields py_repr page pt properties_to_sync ∅ [])
    as [[new [|m ms]]|e]; done.
Qed.

(** Whatever [sync_page] does, it makes at most one call, a creation in the
    slave database of the mapping the pass has assembled with nothing
    missing. *)
Lemma sync_page_issued (page slave : pyval) (pt : gmap string pyval)
    (w w' : world) (r : result pyval) :
  sync_page py_repr notion page slave pt w = (r, w') ->
  stdout w' = stdout w /\
  ((trace w' = trace w /\ exists e, r = Raise e) \/
   (exists new,
      sync_fields py_repr page pt properties_to_sync ∅ [] = Ok (new, []) /\
      trace w' =
        (trace w ++
         [Event (PagesCreate (PyDict [("database_id", slave)]) new) r])%list /\
      r = notion (trace w)
            (PagesCreate (PyDict [("database_id", slave)]) new))).
Proof.
  rewrite sync_page_run.
  destruct (sync_fields py_repr page pt properties_to_sync ∅ [])
    as [[new [|m ms]]|e]; unfold api; intros [= <- <-]; simpl;
    (split; [done|]); eauto 6.
Qed.

(** What a pass that returns with nothing missing has stored under the name
    of a required field the destination schema knows. *)
Lemma sync_fields_stores (page : pyval) (pt : gmap string pyval)
    (names : list string) (new : gmap string pyval) (name : string)
    (tag : pyval) :
  sync_fields py_repr page pt names ∅ [] = Ok (new, []) ->
  name ∈ names -> pt !! name = Some tag ->
  exists value object,
    extract_property_value page name = Ok value /\
    is_blank value = false /\
    create_property_object py_repr name value tag = Ok object /\
    new !! name = Some object.
Proof.
  intros Hscan Hname Htag.
  apply sync_fields_ok in Hscan as (Hmiss & _ & Hk).
  destruct (Hk name) as [(object & _ & (value & type & Hv & Hb & Ht & Hc) & Hl)
                        |[[Hc|[Hc|Hc]] _]].
  - exists value, object. rewrite Htag in Ht. injection Ht as <-. done.
  - done.
  - cbn [app] in Hmiss. symmetry in Hmiss.
    assert (Hin : name ∈ List.filter (is_missing page) names).
    { apply list_elem_of_In, filter_In. split; [|done].
      now apply list_elem_of_In. }
    rewrite Hmiss in Hin. inversion Hin.
  - congruence.
Qed.

(** The mapping of a creation [sync_page] has issued is the one the pass
    returned with nothing missing. *)
Lemma sync_page_created (page slave : pyval) (pt : gmap string pyval)
    (w w' : world) (r : result pyval) (parent : pyval)
    (props : gmap string pyval) (o : result pyval) :
  sync_page py_repr notion page slave pt w = (r, w') ->
  Event (PagesCreate parent props) o ∈ issued w w' ->
  sync_fields py_repr page pt properties_to_sync ∅ [] = Ok (props, []).
Proof.
  intros Hrun Hev.
  apply sync_page_issued in Hrun as (_ & [[Htr _]|(new & Hscan & Htr & _)]).
  { rewrite (issued_refl _ _ Htr) in Hev. inversion Hev. }
  rewrite (issued_app _ _ _ Htr) in Hev.
  apply list_elem_of_singleton in Hev. now injection Hev as _ -> _.
Qed.

(** ** One turn of the loop of [main] *)

Lemma update_sync_status_run (pid : pyval) (status : string) (w : world) :
  update_sync_status notion pid status w =
  (match notion (trace w) (mark pid status) with
   | Ok _ => Ok tt
   | Raise e => Raise e
   end,
   {| trace := trace w ++ [Event (mark pid status)
                                 (notion (trace w) (mark pid status))];
      stdout := stdout w |}).
Proof.
  unfold update_sync_status, bind, api, ret, mark.
  destruct (notion (trace w) (PagesUpdate pid (status_properties status)));
    done.
Qed.

Lemma mark_failed_run (headline : string) (page pid : pyval) (e : exn)
    (w : world) :
  py_getitem page "id" = Ok pid ->
  mark_failed exn_message notion headline page e w =
  (match notion (trace w) (mark pid "Failed") with
   | Ok _ => Ok tt
   | Raise e' => Raise e'
   end,
   {| trace := trace w ++ [Event (mark pid "Failed")
                                 (notion (trace w) (mark pid "Failed"))];
      stdout :=
        match notion (trace w) (mark pid "Failed") with
        | Ok _ =>
            (stdout w ++ [headline ++ exn_str exn_message e]) ++
            ["Marked page as Failed and continuing with next page."]
        | Raise _ => stdout w ++ [headline ++ exn_str exn_message e]
        end |}).
Proof.
  intros Hid. unfold mark_failed, bind, print, lift. rewrite Hid.
  rewrite update_sync_status_run. simpl.
  destruct (notion (trace w) (mark pid "Failed")); done.
Qed.

Lemma process_page_caught (i : nat) (pts page slave : pyval)
    (pt : gmap string pyval) (w w1 : world) (e : exn) :
  sync_attempt py_repr notion i pts page slave pt w = (Raise e, w1) ->
  process_page py_repr exn_message notion i pts page slave pt w =
  mark_failed exn_message notion (failure_headline e) page e w1.
Proof.
  intros H. unfold process_page, try_except. rewrite H. destruct e; done.
Qed.

Lemma process_page_passed (i : nat) (pts page slave : pyval)
    (pt : gmap string pyval) (w w1 : world) :
  sync_attempt py_repr notion i pts page slave pt w = (Ok tt, w1) ->
  process_page py_repr exn_message notion i pts page slave pt w = (Ok tt, w1).
Proof. intros H. unfold process_page, try_except. now rewrite H. Qed.

(** The [try] body, once the page has a name to print and an id. *)
Lemma sync_attempt_run (i : nat) (pts page slave : pyval)
    (pt : gmap string pyval) (w : world) (name pid : pyval) (total : Z) :
  extract_property_value page "Name" = Ok name ->
  py_len pts = Ok total ->
  py_getitem page "id" = Ok pid ->
  let line := syncing_line py_repr i total (page_name_or_default i name) in
  sync_attempt py_repr notion i pts page slave pt w =
  match sync_fields py_repr page pt properties_to_sync ∅ [] with
  | Raise e => (Raise e, {| trace := trace w; stdout := stdout w ++ [line] |})
  | Ok (new, m :: ms) =>
      (Raise (ValueError (missing_message (m :: ms))),
       {| trace := trace w; stdout := stdout w ++ [line] |})
  | Ok (new, []) =>
      match notion (trace w) (create_in slave new) with
      | Raise e =>
          (Raise e,
           {| trace := trace w ++ [Event (create_in slave new) (Raise e)];
              stdout := stdout w ++ [line] |})
      | Ok new_page =>
          let h := (trace w ++ [Event (create_in slave new) (Ok new_page)])%list in
          match notion h (mark pid "Synced") with
          | Raise e =>
              (Raise e,
               {| trace := h ++ [Event (mark pid "Synced") (Raise e)];
                  stdout := stdout w ++ [line] |})
          | Ok updated =>
              (Ok tt,
               {| trace := h ++ [Event (mark pid "Synced") (Ok updated)];
                  stdout := (stdout w ++ [line]) ++
                            ["Successfully synced page."] |})
          end
      end
  end.
Proof.
  intros Hname Hlen Hid line.
  unfold sync_attempt, bind at 1, lift at 1. rewrite Hname.
  unfold bind at 1, lift at 1. rewrite Hlen.
  unfold bind at 1, print at 1. fold line. cbn beta iota.
  unfold bind at 1. rewrite sync_page_run. cbn [trace stdout].
  destruct (sync_fields py_repr page pt properties_to_sync ∅ [])
    as [[new [|m ms]]|e]; [| done | done].
  unfold api. cbn [trace stdout]. fold (create_in slave new).
  destruct (notion (trace w) (create_in slave new)) as [new_page|e]; [|done].
  unfold bind at 1, lift at 1. rewrite Hid.
  unfold bind at 1. rewrite update_sync_status_run. cbn [trace stdout].
  destruct (notion _ (mark pid "Synced")); done.
Qed.
Lemma filter_none {A : Type} (f : A -> bool) (l : list A) :
  (forall x, x ∈ l -> f x = false) -> List.filter f l = [].
Proof.
  induction l as [|a l IH]; intros H; simpl; [done|].
  rewrite (H a (list_elem_of_here _ _)).
  apply IH. intros x Hx. apply H. now apply list_elem_of_further.
Qed.

Lemma filter_some {A : Type} (f : A -> bool) (l : list A) (x : A) :
  x ∈ l -> f x = true -> exists m ms, List.filter f l = m :: ms.
Proof.
  intros Hx Hf.
  assert (Hin : In x (List.filter f l))
    by (apply filter_In; split; [now apply list_elem_of_In|done]).
  destruct (List.filter f l) as [|m ms]; [destruct Hin|eauto].
Qed.

Lemma properties_to_sync_nodup : NoDup properties_to_sync.
Proof. apply (bool_decide_unpack _). vm_compute. reflexivity. Qed.

(** When every required field has a value and a destination tag, the pass
    that returns leaves nothing missing and one entry per required field. *)
Lemma sync_fields_complete (page : pyval) (pt : gmap string pyval)
    (new : gmap string pyval) (miss : list string) :
  (forall n, n ∈ properties_to_sync ->
     exists value, extract_property_value page n = Ok value /\
                   is_blank value = false) ->
  (forall n, n ∈ properties_to_sync -> is_Some (pt !! n)) ->
  sync_fields py_repr page pt properties_to_sync ∅ [] = Ok (new, miss) ->
  miss = [] /\ dom new = list_to_set properties_to_sync.
Proof.
  intros Hvalid Hschema Hscan.
  assert (Hnot : forall n, n ∈ properties_to_sync -> is_missing page n = false).
  { intros n Hn. destruct (Hvalid n Hn) as (value & Hv & Hb).
    unfold is_missing. now rewrite Hv. }
  apply sync_fields_ok in Hscan as (-> & _ & Hk).
  split; [cbn [app]; now apply filter_none|].
  apply set_eq. intros k. rewrite elem_of_dom, elem_of_list_to_set.
  destruct (Hk k) as [(object & Hin & _ & Hl)|[Hc Hl]].
  - rewrite Hl. split; [done|eauto].
  - rewrite Hl, lookup_empty. split; [intros [? [=]]|].
    intros Hin. destruct Hc as [Hc|[Hc|Hc]]; [done| |].
    + rewrite (Hnot k Hin) in Hc. discriminate.
    + destruct (Hschema k Hin) as [? Ht]. congruence.
Qed.

(** C2 (amended). Take a page with at least one required field that extracts
    to [None], the empty string or the empty list, on which every extraction
    returns and every encoding of a value under the destination tag returns.
    Then the pass visits every required field; [sync_page] makes no call and
    raises [ValueError] with the message that lists the missing fields, all
    of them and no others, in the order of the required fields; and the turn
    of the loop makes one call, the update of the page's status to Failed,
    prints that message, and ends normally when the update is accepted. *)
Theorem incomplete_record_is_rejected (i : nat) (pts page slave : pyval)
    (pt : gmap string pyval) (w w' : world) (r : result unit)
    (total : Z) (pid : pyval) :
  (forall n, n ∈ properties_to_sync ->
     exists value, extract_property_value page n = Ok value /\
       (is_blank value = false -> forall type, pt !! n = Some type ->
          exists object,
            create_property_object py_repr n value type = Ok object)) ->
  (exists n, n ∈ properties_to_sync /\ is_missing page n = true) ->
  py_len pts = Ok total ->
  py_getitem page "id" = Ok pid ->
  process_page py_repr exn_message notion i pts page slave pt w = (r, w') ->
  let missing := List.filter (is_missing page) properties_to_sync in
  (forall n, n ∈ missing <->
             n ∈ properties_to_sync /\ is_missing page n = true) /\
  (forall w0, sync_page py_repr notion page slave pt w0 =
              (Raise (ValueError (missing_message missing)), w0)) /\
  issued w w' = [Event (mark pid "Failed")
                       (notion (trace w) (mark pid "Failed"))] /\
  ("Failed to sync page - " ++ missing_message missing)%string ∈ stdout w' /\
  (forall x, notion (trace w) (mark pid "Failed") = Ok x -> r = Ok tt).
Proof.
  intros Hret (n0 & Hn0 & Hmiss0) Hlen Hid Hrun missing.
  destruct (sync_fields_returns page pt properties_to_sync Hret ∅ [])
    as (new & miss & Hscan).
  destruct (sync_fields_ok _ _ _ _ _ _ _ Hscan) as (Hm & _ & _).
  cbn [app] in Hm. fold missing in Hm. subst miss.
  destruct (filter_some _ _ _ Hn0 Hmiss0) as (m & ms & Hne).
  fold missing in Hne.
  split.
  { intros n. unfold missing.
    rewrite list_elem_of_In, filter_In, <- list_elem_of_In. done. }
  split.
  { intros w0. rewrite sync_page_run, Hscan, Hne. done. }
  destruct (Hret "Name") as (name & Hname & _);
    [apply list_elem_of_here|].
  pose proof (sync_attempt_run i pts page slave pt w name pid total
                Hname Hlen Hid) as Hatt.
  cbv zeta in Hatt. rewrite Hscan, Hne in Hatt.
  rewrite (process_page_caught _ _ _ _ _ _ _ _ Hatt) in Hrun.
  rewrite (mark_failed_run _ _ _ _ _ Hid) in Hrun.
  cbn [trace stdout failure_headline exn_str] in Hrun.
  injection Hrun as <- <-. cbn [trace stdout].
  split; [now apply issued_app|].
  rewrite <- Hne.
  split.
  - destruct (notion (trace w) (mark pid "Failed"));
      rewrite ?elem_of_app, !list_elem_of_singleton; tauto.
  - intros x ->. done.
Qed.
(** C1. Whenever [sync_page] submits a mapping to [pages.create], every
    required field the destination schema has a tag for is present in the
    source page with a value, and the mapping holds under its name what
    [create_property_object] makes of that value under the schema's tag for
    the name; the source property's own tag is not an argument of the
    encoding. *)
Theorem sync_page_encodes_by_destination_tag (page slave : pyval)
    (pt : gmap string pyval) (w w' : world) (r : result pyval)
    (parent : pyval) (props : gmap string pyval) (o : result pyval) :
  sync_page py_repr notion page slave pt w = (r, w') ->
  Event (PagesCreate parent props) o ∈ issued w w' ->
  forall name tag,
    name ∈ properties_to_sync -> pt !! name = Some tag ->
    exists value object,
      extract_property_value page name = Ok value /\
      is_blank value = false /\
      create_property_object py_repr name value tag = Ok object /\
      props !! name = Some object.
Proof.
  intros Hrun Hev name tag Hname Htag.
  pose proof (sync_page_created _ _ _ _ _ _ _ _ _ Hrun Hev) as Hscan.
  destruct (sync_fields_stores _ _ _ _ _ _ Hscan Hname Htag)
    as (value & object & Hv & Hb & Hc & Hl).
  exists value, object. repeat split; assumption.
Qed.

(** A tag without a branch in the encoder is encoded as [None]. *)
Lemma create_property_object_unhandled (name : string) (value type : pyval) :
  has_tag encoder_tags type = false ->
  create_property_object py_repr name value type = Ok PyNone.
Proof.
  unfold has_tag, encoder_tags, create_property_object. simpl.
  intros H. repeat (apply orb_false_elim in H as [-> H]). done.
Qed.

(** C4 (amended). A tag the encoder has no branch for is encoded as [None],
    and the mapping [sync_page] submits keeps the field: under the name of a
    required field whose destination tag is such a tag it holds [None]. *)
Theorem unhandled_tag_is_submitted_as_none (page slave : pyval)
    (pt : gmap string pyval) (w w' : world) (r : result pyval)
    (parent : pyval) (props : gmap string pyval) (o : result pyval)
    (name : string) (tag : pyval) :
  has_tag encoder_tags tag = false ->
  (forall value, create_property_object py_repr name value tag = Ok PyNone) /\
  (sync_page py_repr notion page slave pt w = (r, w') ->
   Event (PagesCreate parent props) o ∈ issued w w' ->
   name ∈ properties_to_sync -> pt !! name = Some tag ->
   props !! name = Some PyNone).
Proof.
  intros Htag.
  split; [intros value; now apply create_property_object_unhandled|].
  intros Hrun Hev Hname Hpt.
  pose proof (sync_page_created _ _ _ _ _ _ _ _ _ Hrun Hev) as Hscan.
  destruct (sync_fields_stores _ _ _ _ _ _ Hscan Hname Hpt)
    as (value & object & _ & _ & Hc & Hl).
  rewrite (create_property_object_unhandled name value tag Htag) in Hc.
  now injection Hc as <-.
Qed.

(** C3 (amended). Whatever exception the [try] body of a turn raises, while
    it extracts, encodes, creates or updates the status, an [except] clause
    catches it and asks for the page's status to become Failed; when that
    update is accepted the turn ends normally and the loop goes on with the
    next page. *)
Theorem caught_failure_marks_failed_and_continues (i : nat)
    (pts page slave : pyval) (pages : list pyval) (pt : gmap string pyval)
    (w w1 : world) (e : exn) (pid r : pyval) :
  sync_attempt py_repr notion i pts page slave pt w = (Raise e, w1) ->
  py_getitem page "id" = Ok pid ->
  notion (trace w1) (mark pid "Failed") = Ok r ->
  exists w2,
    process_page py_repr exn_message notion i pts page slave pt w
    = (Ok tt, w2) /\
    trace w2 = (trace w1 ++ [Event (mark pid "Failed") (Ok r)])%list /\
    process_pages py_repr exn_message notion i pts (page :: pages) slave pt w
    = process_pages py_repr exn_message notion (S i) pts pages slave pt w2.
Proof.
  intros Hatt Hid Hupd.
  pose proof (process_page_caught _ _ _ _ _ _ _ _ Hatt) as Hp.
  rewrite (mark_failed_run _ _ _ _ _ Hid), Hupd in Hp.
  eexists. split; [exact Hp|]. split; [done|].
  cbn [process_pages]. unfold bind at 1. now rewrite Hp.
Qed.

(** X24. An exception the update to Failed raises is not caught: it ends
    the turn and the loop, and the pages that follow are not attempted. *)
Lemma failed_update_escapes (i : nat) (pts page slave : pyval)
    (pages : list pyval) (pt : gmap string pyval) (w w1 : world)
    (e e' : exn) (pid : pyval) :
  sync_attempt py_repr notion i pts page slave pt w = (Raise e, w1) ->
  py_getitem page "id" = Ok pid ->
  notion (trace w1) (mark pid "Failed") = Raise e' ->
  exists w2,
    process_pages py_repr exn_message notion i pts (page :: pages) slave pt w
    = (Raise e', w2) /\
    trace w2 = (trace w1 ++ [Event (mark pid "Failed") (Raise e')])%list.
Proof.
  intros Hatt Hid Hupd.
  pose proof (process_page_caught _ _ _ _ _ _ _ _ Hatt) as Hp.
  rewrite (mark_failed_run _ _ _ _ _ Hid), Hupd in Hp.
  eexists. split.
  - cbn [process_pages]. unfold bind at 1. now rewrite Hp.
  - reflexivity.
Qed.

(** C9. When the creation in the slave database succeeds and the update of
    the status to Synced raises, the turn makes three calls and no other:
    the creation, the update to Synced, and an update to Failed.  Nothing
    undoes the creation, so once the last update is accepted the page is
    Failed in the master database and its copy stays in the slave
    database. *)
Theorem created_page_can_end_failed (i : nat) (pts page slave : pyval)
    (pt : gmap string pyval) (w : world) (name pid : pyval) (total : Z)
    (new : gmap string pyval) (new_page r : pyval) (e : exn) :
  extract_property_value page "Name" = Ok name ->
  py_len pts = Ok total ->
  py_getitem page "id" = Ok pid ->
  sync_fields py_repr page pt properties_to_sync ∅ [] = Ok (new, []) ->
  let created := Event (create_in slave new) (Ok new_page) in
  let refused := Event (mark pid "Synced") (Raise e) in
  notion (trace w) (create_in slave new) = Ok new_page ->
  notion (trace w ++ [created]) (mark pid "Synced") = Raise e ->
  notion ((trace w ++ [created]) ++ [refused]) (mark pid "Failed") = Ok r ->
  exists w',
    process_page py_repr exn_message notion i pts page slave pt w
    = (Ok tt, w') /\
    issued w w' = [created; refused; Event (mark pid "Failed") (Ok r)].
Proof.
  intros Hname Hlen Hid Hscan created refused Hc Hs Hf.
  pose proof (sync_attempt_run i pts page slave pt w name pid total
                Hname Hlen Hid) as Hatt.
  cbv zeta in Hatt. rewrite Hscan, Hc in Hatt. fold created in Hatt.
  rewrite Hs in Hatt. fold refused in Hatt.
  pose proof (process_page_caught _ _ _ _ _ _ _ _ Hatt) as Hp.
  rewrite (mark_failed_run _ _ _ _ _ Hid) in Hp.
  cbn [trace stdout] in Hp. rewrite Hf in Hp.
  eexists. split; [exact Hp|].
  apply issued_app. cbn [trace]. now rewrite <- !app_assoc.
Qed.

(** C5 (amended). Take a page on which every required field extracts to a
    value that is not blank, a destination schema with a tag for every
    required field, and suppose every encoding of such a value under its tag
    returns.  Then the turn of the loop starts with the one call to
    [pages.create] it makes, and the mapping that call receives has the
    required fields as its keys, one entry each; every later call of the turn
    is a status update of the page, and an update to Synced occurs among them
    only if the creation returned a page.  When the creation and the update to
    Synced are both accepted, that update is the only other call and the turn
    ends normally. *)
Theorem complete_record_is_created_before_synced (i : nat)
    (pts page slave : pyval) (pt : gmap string pyval) (w w' : world)
    (r : result unit) (total : Z) (pid : pyval) :
  (forall n, n ∈ properties_to_sync ->
     exists value, extract_property_value page n = Ok value /\
                   is_blank value = false) ->
  (forall n, n ∈ properties_to_sync -> is_Some (pt !! n)) ->
  (forall n value type,
     n ∈ properties_to_sync -> extract_property_value page n = Ok value ->
     pt !! n = Some type ->
     exists object, create_property_object py_repr n value type = Ok object) ->
  py_len pts = Ok total ->
  py_getitem page "id" = Ok pid ->
  process_page py_repr exn_message notion i pts page slave pt w = (r, w') ->
  exists new rest,
    dom new = list_to_set properties_to_sync /\
    size new = length properties_to_sync /\
    issued w w' = Event (create_in slave new)
                        (notion (trace w) (create_in slave new)) :: rest /\
    (forall ev, ev ∈ rest -> exists status, ev_call ev = mark pid status) /\
    (forall o, Event (mark pid "Synced") o ∈ rest ->
               exists new_page,
                 notion (trace w) (create_in slave new) = Ok new_page) /\
    (forall new_page updated,
       notion (trace w) (create_in slave new) = Ok new_page ->
       notion (trace w ++ [Event (create_in slave new) (Ok new_page)])
              (mark pid "Synced") = Ok updated ->
       r = Ok tt /\ rest = [Event (mark pid "Synced") (Ok updated)]).
Proof.
  intros Hvalid Hschema Henc Hlen Hid Hrun.
  assert (Hret : forall n, n ∈ properties_to_sync ->
            exists value, extract_property_value page n = Ok value /\
              (is_blank value = false -> forall type, pt !! n = Some type ->
                 exists object,
                   create_property_object py_repr n value type = Ok object)).
  { intros n Hn. destruct (Hvalid n Hn) as (value & Hv & _).
    exists value. split; [done|]. intros _ type Ht. eauto. }
  destruct (sync_fields_returns page pt properties_to_sync Hret ∅ [])
    as (new & miss & Hscan).
  destruct (sync_fields_complete _ _ _ _ Hvalid Hschema Hscan) as (-> & Hdom).
  destruct (Hvalid "Name") as (name & Hname & _); [apply list_elem_of_here|].
  pose proof (sync_attempt_run i pts page slave pt w name pid total
                Hname Hlen Hid) as Hatt.
  cbv zeta in Hatt. rewrite Hscan in Hatt.
  exists new.
  assert (Hsize : size new = length properties_to_sync).
  { rewrite <- size_dom, Hdom.
    apply size_list_to_set, properties_to_sync_nodup. }
  destruct (notion (trace w) (create_in slave new)) as [new_page|e] eqn:Hc.
  - destruct (notion (trace w ++ [Event (create_in slave new) (Ok new_page)])
                     (mark pid "Synced")) as [updated|e] eqn:Hs.
    + rewrite (process_page_passed _ _ _ _ _ _ _ Hatt) in Hrun.
      injection Hrun as <- <-.
      exists [Event (mark pid "Synced") (Ok updated)].
      split; [done|]. split; [done|]. split; [|split; [|split]].
      * apply issued_app. cbn [trace]. now rewrite <- app_assoc.
      * intros ev ->%list_elem_of_singleton. now exists "Synced".
      * eauto.
      * intros new_page' updated' [= <-] Hs'. rewrite Hs in Hs'.
        now injection Hs' as <-.
    + rewrite (process_page_caught _ _ _ _ _ _ _ _ Hatt) in Hrun.
      rewrite (mark_failed_run _ _ _ _ _ Hid) in Hrun.
      injection Hrun as <- <-. cbn [trace].
      eexists [Event (mark pid "Synced") (Raise e); _].
      split; [done|]. split; [done|]. split; [|split; [|split]].
      * apply issued_app. cbn [trace]. rewrite <- !app_assoc. reflexivity.
      * intros ev [->|Hev]%elem_of_cons; [now exists "Synced"|].
        apply list_elem_of_singleton in Hev as ->. now exists "Failed".
      * eauto.
      * intros new_page' updated' [= <-] Hs'. rewrite Hs in Hs'.
        discriminate Hs'.
  - rewrite (process_page_caught _ _ _ _ _ _ _ _ Hatt) in Hrun.
    rewrite (mark_failed_run _ _ _ _ _ Hid) in Hrun.
    injection Hrun as <- <-. cbn [trace].
    eexists [_].
    split; [done|]. split; [done|]. split; [|split; [|split]].
    + apply issued_app. cbn [trace]. rewrite <- !app_assoc. reflexivity.
    + intros ev ->%list_elem_of_singleton. now exists "Failed".
    + intros o Ho%list_elem_of_singleton. unfold mark in Ho.
      injection Ho as Ho _. discriminate Ho.
    + intros new_page' updated' [=].
Qed.

(** ** Extraction and encoding *)

(** Extraction, once the property of that name has been found. *)
Lemma extract_property_value_found (page : pyval)
    (props prop : list (string * pyval)) (name : string) :
  py_getitem page "properties" = Ok (PyDict props) ->
  dict_get name props = Some (PyDict prop) ->
  extract_property_value page name =
  let? prop_type := py_getitem (PyDict prop) "type" in
  if py_eq_str prop_type "title" then
    let? title_items := py_get (PyDict prop) "title" (PyList []) in
    if negb (py_truthy title_items) then Ok (PyStr "")
    else join_segments title_items
  else if py_eq_str prop_type "rich_text" then
    let? rich_text_items := py_get (PyDict prop) "rich_text" (PyList []) in
    if negb (py_truthy rich_text_items) then Ok (PyStr "")
    else join_segments rich_text_items
  else if py_eq_str prop_type "number" then
    py_get (PyDict prop) "number" PyNone
  else if py_eq_str prop_type "select" then
    let? select_data := py_get (PyDict prop) "select" PyNone in
    get_if_set select_data "name"
  else if py_eq_str prop_type "multi_select" then
    let? selected := py_get (PyDict prop) "multi_select" (PyList []) in
    let? items := py_iter selected in
    let? names := rmap (fun item => py_getitem item "name") items in
    Ok (PyList names)
  else if py_eq_str prop_type "date" then
    let? date_data := py_get (PyDict prop) "date" PyNone in
    get_if_set date_data "start"
  else if py_eq_str prop_type "url" then
    py_get (PyDict prop) "url" PyNone
  else if py_eq_str prop_type "email" then
    py_get (PyDict prop) "email" PyNone
  else if py_eq_str prop_type "phone_number" then
    py_get (PyDict prop) "phone_number" PyNone
  else if py_eq_str prop_type "checkbox" then
    py_get (PyDict prop) "checkbox" PyNone
  else if py_eq_str prop_type "formula" then
    let? formula_data := py_get (PyDict prop) "formula" (PyDict []) in
    extract_formula formula_data
  else Ok PyNone.
Proof.
  intros Hprops Hprop. unfold extract_property_value.
  rewrite Hprops. simpl. now rewrite Hprop.
Qed.

(** C8. On a page with a property mapping, a name that is not a key of the
    mapping extracts to [None]; a select whose value is null extracts to
    [None]; a multi-select with an empty list extracts to the empty list; a
    title or a rich text with an empty list of segments extracts to the empty
    string.  Each of these extractions returns: none raises. *)
Theorem extraction_of_absent_and_empty (page : pyval)
    (props : list (string * pyval)) (name : string) :
  py_getitem page "properties" = Ok (PyDict props) ->
  (dict_get name props = None ->
   extract_property_value page name = Ok PyNone) /\
  (forall prop,
     dict_get name props = Some (PyDict prop) ->
     (dict_get "type" prop = Some (PyStr "select") ->
      dict_get "select" prop = Some PyNone ->
      extract_property_value page name = Ok PyNone) /\
     (dict_get "type" prop = Some (PyStr "multi_select") ->
      dict_get "multi_select" prop = Some (PyList []) ->
      extract_property_value page name = Ok (PyList [])) /\
     (dict_get "type" prop = Some (PyStr "title") ->
      dict_get "title" prop = Some (PyList []) ->
      extract_property_value page name = Ok (PyStr "")) /\
     (dict_get "type" prop = Some (PyStr "rich_text") ->
      dict_get "rich_text" prop = Some (PyList []) ->
      extract_property_value page name = Ok (PyStr ""))).
Proof.
  intros Hprops. split.
  - intros Hnone. unfold extract_property_value.
    rewrite Hprops. simpl. now rewrite Hnone.
  - intros prop Hprop.
    repeat split; intros Htype Hval;
      rewrite (extract_property_value_found _ _ _ _ Hprops Hprop);
      simpl; rewrite Htype; simpl; now rewrite Hval.
Qed.

(** The encoder yields [None] for the tags outside [encoder_tags] and for no
    other. *)
Lemma create_property_object_none_iff (name : string)
    (value type object : pyval) :
  create_property_object py_repr name value type = Ok object ->
  (object = PyNone <-> has_tag encoder_tags type = false).
Proof.
  intros Hc. split.
  - intros ->. destruct (has_tag encoder_tags type) eqn:Ht; [|done].
    exfalso. unfold has_tag, encoder_tags in Ht. simpl in Ht.
    unfold create_property_object in Hc.
    repeat match type of Hc with
           | context [if py_eq_str type ?s then _ else _] =>
               destruct (py_eq_str type s)
           | context [if py_truthy value then _ else _] =>
               destruct (py_truthy value)
           | context [py_iter value] => destruct (py_iter value)
           end; simpl in *; discriminate.
  - intros Ht. rewrite (create_property_object_unhandled _ _ _ Ht) in Hc.
    now injection Hc as <-.
Qed.

(** C10. The encoder has a branch for fewer tags than the extractor: each
    tag it handles is one the extractor handles, and [email], [phone_number]
    and [formula], which the extractor reads, are encoded as [None] whatever
    the value. *)
Theorem encoder_tags_are_a_strict_subset :
  (forall tag, tag ∈ encoder_tags -> tag ∈ extractor_tags) /\
  (forall tag,
     tag ∈ ["email"; "phone_number"; "formula"] ->
     tag ∈ extractor_tags /\ (tag ∉ encoder_tags) /\
     (forall name value,
        create_property_object py_repr name value (PyStr tag) = Ok PyNone)) /\
  (forall page props prop name value,
     py_getitem page "properties" = Ok (PyDict props) ->
     dict_get name props = Some (PyDict prop) ->
     (dict_get "type" prop = Some (PyStr "email") ->
      dict_get "email" prop = Some value ->
      extract_property_value page name = Ok value) /\
     (dict_get "type" prop = Some (PyStr "phone_number") ->
      dict_get "phone_number" prop = Some value ->
      extract_property_value page name = Ok value) /\
     (dict_get "type" prop = Some (PyStr "formula") ->
      dict_get "formula" prop = Some (PyDict [("string", value)]) ->
      extract_property_value page name = Ok value)).
Proof.
  split; [|split].
  - unfold encoder_tags, extractor_tags. intros tag Ht.
    repeat (apply elem_of_cons in Ht as [->|Ht]; [in_list|]).
    inversion Ht.
  - intros tag Ht.
    repeat (apply elem_of_cons in Ht as [->|Ht];
            [split; [unfold extractor_tags; in_list|];
             split; [unfold encoder_tags; not_in_list|done]|]).
    inversion Ht.
  - intros page props prop name value Hprops Hprop.
    repeat split; intros Htype Hval;
      rewrite (extract_property_value_found _ _ _ _ Hprops Hprop);
      simpl; rewrite Htype; simpl; now rewrite Hval.
Qed.
Lemma join_one_segment (s : string) :
  join_segments (PyList [text_object s]) = Ok (PyStr s).
Proof. unfold join_segments. simpl. now rewrite append_empty. Qed.

Lemma rmap_name_objects (items : list pyval) :
  rmap (fun item => py_getitem item "name")
       (map (fun item => PyDict [("name", item)]) items) = Ok items.
Proof.
  induction items as [|item items IH]; simpl; [done|]. now rewrite IH.
Qed.

Lemma text_content_fixed (s : string) :
  (if py_truthy (PyStr s) then py_str py_repr (PyStr s) else "") = s.
Proof. destruct s; done. Qed.

(** C7. For a tag the encoder handles and a raw value [x] it can produce
    under that tag, reading [x] back and encoding what was read gives [x]
    again: when a property of type [tag] carries [x], extraction returns a
    value, and [create_property_object] of that value under [tag] is the
    object that holds [x]. *)
Theorem encode_extract_round_trip (tag : string) (x page : pyval)
    (props prop : list (string * pyval)) (name : string) :
  representable py_repr tag x ->
  py_getitem page "properties" = Ok (PyDict props) ->
  dict_get name props = Some (PyDict prop) ->
  dict_get "type" prop = Some (PyStr tag) ->
  dict_get tag prop = Some x ->
  exists value,
    extract_property_value page name = Ok value /\
    create_property_object py_repr name value (PyStr tag)
    = Ok (PyDict [(tag, x)]).
Proof.
  intros [v Hv] Hprops Hprop Htype Hval.
  rewrite (extract_property_value_found _ _ _ _ Hprops Hprop).
  unfold create_property_object in *. simpl. rewrite Htype. simpl.
  simpl in Hv.
  repeat match type of Hv with
         | context [if String.eqb tag ?s then _ else _] =>
             let H := fresh in
             destruct (String.eqb tag s) eqn:H;
             [apply String.eqb_eq in H; subst tag; simpl in *|]
         end; [..|discriminate];
    rewrite Hval; simpl.
  - injection Hv as <-. cbn [py_truthy negb]. rewrite join_one_segment.
    eexists. split; [reflexivity|]. now rewrite text_content_fixed.
  - injection Hv as <-. cbn [py_truthy negb]. rewrite join_one_segment.
    eexists. split; [reflexivity|]. now rewrite text_content_fixed.
  - injection Hv as <-. eexists. split; [reflexivity|]. now destruct v.
  - destruct (py_truthy v) eqn:Hp; injection Hv as <-.
    + exists v. simpl. now rewrite Hp.
    + now exists PyNone.
  - destruct (py_truthy v) eqn:Hp.
    + destruct (py_iter v) as [items|e]; simpl in Hv; [|discriminate].
      injection Hv as <-. simpl. rewrite rmap_name_objects. simpl.
      exists (PyList items). split; [done|]. now destruct items.
    + injection Hv as <-. now exists (PyList []).
  - destruct (py_truthy v) eqn:Hp; injection Hv as <-.
    + exists v. simpl. now rewrite Hp.
    + now exists PyNone.
  - injection Hv as <-. eexists. split; [reflexivity|].
    destruct (py_truthy v) eqn:Hp; [now rewrite Hp|done].
  - injection Hv as <-. eexists. split; [reflexivity|]. now destruct v.
Qed.
(** Only the tags of the encoder have representable values. *)
Lemma representable_encoder_tag (tag : string) (x : pyval) :
  representable py_repr tag x -> tag ∈ encoder_tags.
Proof.
  intros [v Hv].
  destruct (has_tag encoder_tags (PyStr tag)) eqn:Ht.
  - unfold has_tag in Ht. apply existsb_exists in Ht as (t & Hin & Heq).
    apply py_eq_str_true in Heq. injection Heq as ->.
    now apply list_elem_of_In.
  - apply (create_property_object_none_iff _ _ _ _ Hv) in Ht. discriminate.
Qed.

(** The representable values, tag by tag: one text segment; any number; an
    unset choice or an option given by a true name; a list of options given
    by their names; an unset date or a true start; an unset or a true url;
    a boolean. *)
Lemma representable_shapes :
  (forall s, representable py_repr "title" (PyList [text_object s])) /\
  (forall s, representable py_repr "rich_text" (PyList [text_object s])) /\
  (forall x, representable py_repr "number" x) /\
  representable py_repr "select" PyNone /\
  (forall v, py_truthy v = true ->
             representable py_repr "select" (PyDict [("name", v)])) /\
  (forall items,
     representable py_repr "multi_select"
       (PyList (map (fun item => PyDict [("name", item)]) items))) /\
  representable py_repr "date" PyNone /\
  (forall v, py_truthy v = true ->
             representable py_repr "date" (PyDict [("start", v)])) /\
  representable py_repr "url" PyNone /\
  (forall v, py_truthy v = true -> representable py_repr "url" v) /\
  (forall b, representable py_repr "checkbox" (PyBool b)).
Proof.
  unfold representable, create_property_object.
  repeat split.
  - intros s. exists (PyStr s). now destruct s.
  - intros s. exists (PyStr s). now destruct s.
  - intros x. exists x. simpl. now destruct x.
  - now exists PyNone.
  - intros v Hv. exists v. simpl. now rewrite Hv.
  - intros items. exists (PyList items). simpl. now destruct items.
  - now exists PyNone.
  - intros v Hv. exists v. simpl. now rewrite Hv.
  - now exists PyNone.
  - intros v Hv. exists v. simpl. now rewrite Hv.
  - intros b. now exists (PyBool b).
Qed.

(** ** [get_master_pages] *)

Lemma response_has_more (p : query_page) :
  py_get (response_of p) "has_more" (PyBool false) = Ok (PyBool (has_more p)).
Proof. reflexivity. Qed.

Lemma response_results (p : query_page) :
  py_get (response_of p) "results" (PyList []) = Ok (PyList (results p)).
Proof. reflexivity. Qed.

Lemma response_next_cursor (p : query_page) :
  py_get (response_of p) "next_cursor" PyNone = Ok (next_cursor p).
Proof. reflexivity. Qed.

Lemma loop_step_stops (db : pyval) (limit : option Z)
    (query : gmap string pyval) (p : query_page) (acc : list pyval)
    (w : world) :
  has_more p = false \/
  (exists n, limit = Some n /\ n <= Z.of_nat (length acc)) ->
  loop_step notion db limit query (response_of p) (PyList acc) w
  = (Ok (Finished (PyList acc)), w).
Proof.
  intros H. unfold loop_step, loop_condition, bind at 1, lift at 1.
  rewrite response_has_more. cbn [rbind py_truthy].
  destruct (has_more p) eqn:Hm.
  - destruct H as [H|(n & -> & Hn)]; [discriminate|].
    cbn [py_len rbind]. now rewrite (proj2 (Z.ltb_ge _ _) Hn).
  - done.
Qed.

Lemma loop_step_fetches (db : pyval) (limit : option Z)
    (query : gmap string pyval) (p p' : query_page) (acc : list pyval)
    (w : world) :
  has_more p = true ->
  (forall n, limit = Some n -> Z.of_nat (length acc) < n) ->
  let query' := <["start_cursor" := next_cursor p]> query in
  notion (trace w) (DatabasesQuery db query') = Ok (response_of p') ->
  let acc' := (acc ++ results p')%list in
  loop_step notion db limit query (response_of p) (PyList acc) w
  = (Ok (match limit with
         | None => Looping query' (response_of p') (PyList acc')
         | Some n =>
             if n <=? Z.of_nat (length acc')
             then Finished (PyList (firstn (Z.to_nat n) acc'))
             else Looping query' (response_of p') (PyList acc')
         end),
     {| trace := trace w ++ [Event (DatabasesQuery db query')
                                   (Ok (response_of p'))];
        stdout := stdout w |}).
Proof.
  intros Hm Hlim query' Hq acc'.
  unfold loop_step, loop_condition, bind at 1, lift at 1.
  rewrite response_has_more. cbn [rbind py_truthy]. rewrite Hm.
  assert (Hcond : match limit with
                  | Some n => let? len := py_len (PyList acc) in Ok (len <? n)
                  | None => Ok true
                  end = Ok true).
  { destruct limit as [n|]; [|done]. cbn [py_len rbind].
    now rewrite (proj2 (Z.ltb_lt _ _) (Hlim n eq_refl)). }
  rewrite Hcond. cbn [negb].
  unfold bind at 1, lift at 1. rewrite response_next_cursor.
  fold query'. unfold bind at 1, api at 1. rewrite Hq.
  unfold bind at 1, lift at 1. rewrite response_results.
  unfold bind at 1, lift at 1. cbn [py_extend py_iter rbind]. fold acc'.
  destruct limit as [n|]; [|done].
  unfold bind at 1, lift at 1. cbn [py_len].
  destruct (n <=? Z.of_nat (length acc')) eqn:Hn; [|done].
  unfold bind, lift, ret. cbn [py_slice_to]. unfold slice_stop.
  assert (H0 : (0 <=? n) = true).
  { apply Z.leb_le. specialize (Hlim n eq_refl). lia. }
  now rewrite H0.
Qed.
Lemma serves_head (db : pyval) (w : world) (p : query_page)
    (ps : list query_page) (query : gmap string pyval) :
  serves notion db w (p :: ps) ->
  notion (trace w) (DatabasesQuery db query) = Ok (response_of p).
Proof. intros H. apply (H 0%nat p eq_refl). lia. Qed.

Lemma serves_tail (db : pyval) (w w' : world) (p : query_page)
    (ps : list query_page) (ev : event) :
  serves notion db w (p :: ps) ->
  trace w' = (trace w ++ [ev])%list ->
  serves notion db w' ps.
Proof.
  intros H Htr j q Hj h query Hlen.
  apply (H (S j) q Hj). rewrite Hlen, Htr, length_app. simpl. lia.
Qed.

Lemma firstn_covered {A : Type} (n : nat) (l1 l2 : list A) :
  (n <= length l1)%nat -> firstn n (l1 ++ l2) = firstn n l1.
Proof.
  intros H. rewrite firstn_app.
  replace (n - length l1)%nat with 0%nat by lia.
  simpl. apply app_nil_r.
Qed.

Lemma run_loop_finished (fuel : nat) (db : pyval) (limit : option Z)
    (pages : pyval) (w : world) :
  run_loop notion fuel db limit (Finished pages) w = Some (Ok pages, w).
Proof. now destruct fuel. Qed.

Lemma run_loop_collects (db : pyval) (limit : option Z)
    (rest : list query_page) :
  forall (p : query_page) (acc : list pyval) (query : gmap string pyval)
         (w : world) (fuel : nat),
    chained p rest = true ->
    serves notion db w rest ->
    (length rest < fuel)%nat ->
    query !! "filter" = Some eligibility_filter ->
    exists w',
      run_loop notion fuel db limit
               (Looping query (response_of p) (PyList acc)) w
      = Some (Ok (PyList (loop_result limit acc rest)), w') /\
      stdout w' = stdout w /\
      (exists evs, trace w' = (trace w ++ evs)%list /\
                   Forall (filtered_query db) evs).
Proof.
  induction rest as [|p' rest IH];
    intros p acc query w fuel Hch Hsrv Hfuel Hfilter;
    (destruct fuel as [|fuel]; [simpl in Hfuel; lia|]); cbn [run_loop].
  - simpl in Hch. apply negb_true_iff in Hch.
    rewrite loop_step_stops by now left. rewrite run_loop_finished.
    exists w. split; [|split; [done|]].
    + unfold loop_result, all_results. simpl.
      rewrite app_nil_r. destruct limit as [n|]; [|done].
      destruct (Z.of_nat (length acc) <? n) eqn:Hn; [|done].
      apply Z.ltb_lt in Hn. rewrite firstn_all2; [done|lia].
    + exists []. now rewrite app_nil_r.
  - simpl in Hch. apply andb_true_iff in Hch as [Hm Hch].
    assert (Hstop : (exists n, limit = Some n /\ n <= Z.of_nat (length acc)) \/
                    (forall n, limit = Some n -> Z.of_nat (length acc) < n)).
    { destruct limit as [n|]; [|right; intros n [=]].
      destruct (Z_le_gt_dec n (Z.of_nat (length acc))) as [Hle|Hgt].
      - left. eauto.
      - right. intros n' [= <-]. lia. }
    destruct Hstop as [(n & -> & Hn)|Hlim].
    { rewrite loop_step_stops by (right; eauto). rewrite run_loop_finished.
      exists w. split; [|split; [done|]].
      - unfold loop_result.
        now rewrite (proj2 (Z.ltb_ge _ _) Hn).
      - exists []. now rewrite app_nil_r. }
    set (query' := <["start_cursor" := next_cursor p]> query).
    set (ev := Event (DatabasesQuery db query') (Ok (response_of p'))).
    set (w1 := {| trace := trace w ++ [ev]; stdout := stdout w |}).
    rewrite (loop_step_fetches db limit query p p' acc w Hm Hlim
               (serves_head db w p' rest query' Hsrv)).
    fold query' ev w1.
    assert (Hfilter' : query' !! "filter" = Some eligibility_filter).
    { unfold query'. now rewrite lookup_insert_ne. }
    assert (Hev : filtered_query db ev) by (now exists query').
    assert (Hsrv' : serves notion db w1 rest)
      by (now apply (serves_tail db w w1 p' rest ev)).
    assert (Hfuel' : (length rest < fuel)%nat) by (simpl in Hfuel; lia).
    assert (Hnext :
      exists w',
        run_loop notion fuel db limit
          (Looping query' (response_of p') (PyList (acc ++ results p'))) w1
        = Some (Ok (PyList (loop_result limit (acc ++ results p') rest)), w') /\
        stdout w' = stdout w /\
        (exists evs, trace w' = (trace w ++ evs)%list /\
                     Forall (filtered_query db) evs)).
    { destruct (IH p' (acc ++ results p')%list query' w1 fuel
                   Hch Hsrv' Hfuel' Hfilter')
        as (w' & Hrun & Hout & evs & Htr & Hall).
      exists w'. split; [done|]. split; [done|].
      exists (ev :: evs). split; [|now constructor].
      rewrite Htr. unfold w1. cbn [trace]. now rewrite <- app_assoc. }
    destruct limit as [n|].
    + specialize (Hlim n eq_refl).
      assert (Hlt : (Z.of_nat (length acc) <? n) = true)
        by now apply Z.ltb_lt.
      destruct (n <=? Z.of_nat (length (acc ++ results p'))) eqn:Hn.
      * rewrite run_loop_finished. exists w1. split; [|split; [done|]].
        -- unfold loop_result, all_results. rewrite Hlt.
           simpl. rewrite app_assoc.
           rewrite (firstn_covered _ (acc ++ results p')); [done|].
           apply Z.leb_le in Hn. lia.
        -- exists [ev]. split; [done|]. now constructor.
      * destruct Hnext as (w' & Hrun & Hrest). exists w'.
        split; [|done]. rewrite Hrun.
        unfold loop_result, all_results. rewrite Hlt.
        apply Z.leb_gt in Hn.
        rewrite (proj2 (Z.ltb_lt _ _) Hn). simpl. now rewrite app_assoc.
    + destruct Hnext as (w' & Hrun & Hrest). exists w'.
      split; [|done]. rewrite Hrun.
      unfold loop_result, all_results. simpl. now rewrite app_assoc.
Qed.
Lemma initial_query_filter (limit : option Z) :
  initial_query limit !! "filter" = Some eligibility_filter.
Proof.
  unfold initial_query. destruct limit as [n|].
  - rewrite lookup_insert_ne by done. apply lookup_singleton_eq.
  - apply lookup_singleton_eq.
Qed.

(** C6 (amended). Let the collaborator answer the successive queries with a
    sequence of pages of which all but the last announce a next page, and let
    the fuel cover their number.  Then [get_master_pages] returns.  Without a
    cap it returns the results of all the pages, in order.  With a cap that
    the first page does not exceed it returns the first [cap] of those results
    (all of them when they are fewer): never more than [cap], and exactly
    [cap] when the pages hold that many.  Every query it makes carries the
    filter on "Sync Status" = "Not Synced" and "Sync?" = "True". *)
Theorem get_master_pages_collects (db : pyval) (limit : option Z)
    (first : query_page) (rest : list query_page) (w : world) (fuel : nat) :
  chained first rest = true ->
  serves notion db w (first :: rest) ->
  (length rest < fuel)%nat ->
  (forall n, limit = Some n -> Z.of_nat (length (results first)) <= n) ->
  exists out w',
    get_master_pages notion fuel db limit w = Some (Ok (PyList out), w') /\
    out = match limit with
          | None => all_results (first :: rest)
          | Some n => firstn (Z.to_nat n) (all_results (first :: rest))
          end /\
    (forall n, limit = Some n ->
       Z.of_nat (length out)
       = Z.min n (Z.of_nat (length (all_results (first :: rest))))) /\
    Forall (filtered_query db) (issued w w').
Proof.
  intros Hch Hsrv Hfuel Hfirst.
  set (query := initial_query limit).
  set (ev := Event (DatabasesQuery db query) (Ok (response_of first))).
  set (w1 := {| trace := trace w ++ [ev]; stdout := stdout w |}).
  assert (Hev : filtered_query db ev).
  { exists query. split; [done|]. apply initial_query_filter. }
  destruct (run_loop_collects db limit rest first (results first) query w1
              fuel Hch (serves_tail db w w1 first rest ev Hsrv eq_refl)
              Hfuel (initial_query_filter limit))
    as (w2 & Hrun & Hout & evs & Htr & Hall).
  assert (Hres : loop_result limit (results first) rest
                 = match limit with
                   | None => all_results (first :: rest)
                   | Some n => firstn (Z.to_nat n) (all_results (first :: rest))
                   end).
  { unfold loop_result, all_results. simpl.
    destruct limit as [n|]; [|done].
    specialize (Hfirst n eq_refl).
    destruct (Z.of_nat (length (results first)) <? n) eqn:Hn; [done|].
    apply Z.ltb_ge in Hn.
    rewrite firstn_covered by lia. rewrite firstn_all2; [done|lia]. }
  exists (loop_result limit (results first) rest).
  eexists. split; [|split; [exact Hres|split]].
  - unfold get_master_pages. fold query.
    unfold bind at 1, api at 1.
    rewrite (serves_head db w first rest query Hsrv). fold ev w1.
    unfold bind at 1, lift at 1. rewrite response_results.
    unfold ret. rewrite Hrun.
    unfold bind, lift, print, ret. cbn [py_len]. reflexivity.
  - intros n ->. rewrite Hres, length_firstn.
    specialize (Hfirst n eq_refl). lia.
  - cbn [trace]. rewrite (issued_app w _ (ev :: evs)).
    + now constructor.
    + cbn [trace]. rewrite Htr. unfold w1. cbn [trace].
      now rewrite <- app_assoc.
Qed.

(** ** Further properties of extraction and encoding *)

Lemma rmap_segments (items : list pyval) (texts : list string) :
  Forall2 (fun item text => segment_content item = Ok (PyStr text))
          items texts ->
  rmap segment_content items = Ok (map PyStr texts).
Proof.
  induction 1 as [|item text items texts Hitem _ IH]; simpl; [done|].
  now rewrite Hitem, IH.
Qed.

Lemma py_join_strings (texts : list string) :
  py_join (map PyStr texts) = Ok (fold_right append "" texts).
Proof.
  induction texts as [|text texts IH]; simpl; [done|]. now rewrite IH.
Qed.

(** X1. A title or a rich text extracts to the contents of its segments put
    one after the other, in the order of the segments, whatever else the
    segments carry. *)
Theorem text_extraction_concatenates (page : pyval)
    (props prop : list (string * pyval)) (name tag : string)
    (items : list pyval) (texts : list string) :
  py_getitem page "properties" = Ok (PyDict props) ->
  dict_get name props = Some (PyDict prop) ->
  tag = "title" \/ tag = "rich_text" ->
  dict_get "type" prop = Some (PyStr tag) ->
  dict_get tag prop = Some (PyList items) ->
  Forall2 (fun item text => segment_content item = Ok (PyStr text))
          items texts ->
  extract_property_value page name = Ok (PyStr (fold_right append "" texts)).
Proof.
  intros Hprops Hprop Htag Htype Hval Hitems.
  rewrite (extract_property_value_found _ _ _ _ Hprops Hprop).
  assert (Hjoin : (if negb (py_truthy (PyList items)) then Ok (PyStr "")
                   else join_segments (PyList items))
                  = Ok (PyStr (fold_right append "" texts))).
  { destruct Hitems as [|item text items texts Hitem Hrest]; [done|].
    cbn [py_truthy negb]. unfold join_segments. cbn [py_iter rbind].
    rewrite (rmap_segments (item :: items) (text :: texts))
      by now constructor.
    cbn [rbind]. now rewrite py_join_strings. }
  destruct Htag as [-> | ->]; simpl; rewrite Htype; simpl;
    rewrite Hval; exact Hjoin.
Qed.

(** X2. A title or a rich text with a segment that has no ["text"] key (a
    mention, an equation) does not extract: [KeyError] is raised, whatever
    the segments before it and after it hold. *)
Theorem text_extraction_needs_text_segments (page : pyval)
    (props prop : list (string * pyval)) (name tag : string)
    (before after : list pyval) (texts : list string)
    (segment : list (string * pyval)) :
  py_getitem page "properties" = Ok (PyDict props) ->
  dict_get name props = Some (PyDict prop) ->
  tag = "title" \/ tag = "rich_text" ->
  dict_get "type" prop = Some (PyStr tag) ->
  dict_get tag prop = Some (PyList (before ++ PyDict segment :: after)) ->
  Forall2 (fun item text => segment_content item = Ok (PyStr text))
          before texts ->
  dict_get "text" segment = None ->
  extract_property_value page name = Raise (KeyError "text").
Proof.
  intros Hprops Hprop Htag Htype Hval Hbefore Hsegment.
  rewrite (extract_property_value_found _ _ _ _ Hprops Hprop).
  assert (Hmap : rmap segment_content (before ++ PyDict segment :: after)
                 = Raise (KeyError "text")).
  { clear Hval. induction Hbefore as [|item text items texts' Hitem _ IH];
      simpl.
    - unfold segment_content. simpl. now rewrite Hsegment.
    - now rewrite Hitem, IH. }
  assert (Hjoin :
    (if negb (py_truthy (PyList (before ++ PyDict segment :: after)))
     then Ok (PyStr "")
     else join_segments (PyList (before ++ PyDict segment :: after)))
    = Raise (KeyError "text")).
  { replace (py_truthy (PyList (before ++ PyDict segment :: after)))
      with true by now destruct before.
    cbn [negb]. unfold join_segments. cbn [py_iter rbind]. now rewrite Hmap. }
  destruct Htag as [-> | ->]; simpl; rewrite Htype; simpl;
    rewrite Hval; exact Hjoin.
Qed.

(** X3. A multi-select extracts to the names of its options, in their order,
    whatever else the options carry. *)
Theorem multi_select_extraction_lists_names (page : pyval)
    (props prop : list (string * pyval)) (name : string)
    (options names : list pyval) :
  py_getitem page "properties" = Ok (PyDict props) ->
  dict_get name props = Some (PyDict prop) ->
  dict_get "type" prop = Some (PyStr "multi_select") ->
  dict_get "multi_select" prop = Some (PyList options) ->
  Forall2 (fun option selected => py_getitem option "name" = Ok selected)
          options names ->
  extract_property_value page name = Ok (PyList names).
Proof.
  intros Hprops Hprop Htype Hval Hoptions.
  rewrite (extract_property_value_found _ _ _ _ Hprops Hprop).
  simpl. rewrite Htype. simpl. rewrite Hval. simpl.
  assert (Hmap : rmap (fun item => py_getitem item "name") options
                 = Ok names).
  { clear Hval.
    induction Hoptions as [|option n options names Hn _ IH]; simpl; [done|].
    now rewrite Hn, IH. }
  now rewrite Hmap.
Qed.

(** X4. A value that [kept_by] admits for a tag survives the trip through
    the destination: the encoder returns an object with the tag as its one
    key, and a property of that type carrying what stands under the key
    extracts to the value itself. *)
Theorem encoding_is_read_back (name tag : string) (value : pyval) :
  kept_by tag value = true ->
  exists x,
    create_property_object py_repr name value (PyStr tag)
    = Ok (PyDict [(tag, x)]) /\
    forall page props prop field,
      py_getitem page "properties" = Ok (PyDict props) ->
      dict_get field props = Some (PyDict prop) ->
      dict_get "type" prop = Some (PyStr tag) ->
      dict_get tag prop = Some x ->
      extract_property_value page field = Ok value.
Proof.
  unfold kept_by. intros Hkept.
  repeat match type of Hkept with
         | context [String.eqb tag ?s] =>
             let H := fresh in
             destruct (String.eqb tag s) eqn:H;
             [apply String.eqb_eq in H; subst tag; simpl in Hkept|]
         end; try discriminate Hkept.
  - destruct value as [| | | |s| |]; try discriminate Hkept.
    exists (PyList [text_object s]).
    split; [unfold create_property_object; simpl; now destruct s|].
    intros page props prop field Hprops Hprop Htype Hval.
    rewrite (extract_property_value_found _ _ _ _ Hprops Hprop).
    simpl. rewrite Htype. simpl. rewrite Hval.
    cbn [py_truthy negb]. apply join_one_segment.
  - destruct value as [| | | |s| |]; try discriminate Hkept.
    exists (PyList [text_object s]).
    split; [unfold create_property_object; simpl; now destruct s|].
    intros page props prop field Hprops Hprop Htype Hval.
    rewrite (extract_property_value_found _ _ _ _ Hprops Hprop).
    simpl. rewrite Htype. simpl. rewrite Hval.
    cbn [py_truthy negb]. apply join_one_segment.
  - exists value.
    split; [unfold create_property_object; simpl; now destruct value|].
    intros page props prop field Hprops Hprop Htype Hval.
    rewrite (extract_property_value_found _ _ _ _ Hprops Hprop).
    simpl. rewrite Htype. simpl. now rewrite Hval.
  - destruct (py_truthy value) eqn:Htrue.
    + exists (PyDict [("name", value)]).
      split; [unfold create_property_object; simpl; now rewrite Htrue|].
      intros page props prop field Hprops Hprop Htype Hval.
      rewrite (extract_property_value_found _ _ _ _ Hprops Hprop).
      simpl. rewrite Htype. simpl. now rewrite Hval.
    + destruct value; try discriminate Hkept. exists PyNone.
      split; [done|].
      intros page props prop field Hprops Hprop Htype Hval.
      rewrite (extract_property_value_found _ _ _ _ Hprops Hprop).
      simpl. rewrite Htype. simpl. now rewrite Hval.
  - destruct (py_truthy value) eqn:Htrue.
    + exists (PyDict [("start", value)]).
      split; [unfold create_property_object; simpl; now rewrite Htrue|].
      intros page props prop field Hprops Hprop Htype Hval.
      rewrite (extract_property_value_found _ _ _ _ Hprops Hprop).
      simpl. rewrite Htype. simpl. now rewrite Hval.
    + destruct value; try discriminate Hkept. exists PyNone.
      split; [done|].
      intros page props prop field Hprops Hprop Htype Hval.
      rewrite (extract_property_value_found _ _ _ _ Hprops Hprop).
      simpl. rewrite Htype. simpl. now rewrite Hval.
  - destruct (py_truthy value) eqn:Htrue.
    + exists value.
      split; [unfold create_property_object; simpl; now rewrite Htrue|].
      intros page props prop field Hprops Hprop Htype Hval.
      rewrite (extract_property_value_found _ _ _ _ Hprops Hprop).
      simpl. rewrite Htype. simpl. now rewrite Hval.
    + destruct value; try discriminate Hkept. exists PyNone.
      split; [done|].
      intros page props prop field Hprops Hprop Htype Hval.
      rewrite (extract_property_value_found _ _ _ _ Hprops Hprop).
      simpl. rewrite Htype. simpl. now rewrite Hval.
  - destruct value as [| | | | |items|]; try discriminate Hkept.
    exists (PyList (map (fun item => PyDict [("name", item)]) items)).
    split; [unfold create_property_object; simpl; now destruct items|].
    intros page props prop field Hprops Hprop Htype Hval.
    rewrite (extract_property_value_found _ _ _ _ Hprops Hprop).
    simpl. rewrite Htype. simpl. rewrite Hval. simpl.
    now rewrite rmap_name_objects.
  - exists value.
    split; [unfold create_property_object; simpl; now destruct value|].
    intros page props prop field Hprops Hprop Htype Hval.
    rewrite (extract_property_value_found _ _ _ _ Hprops Hprop).
    simpl. rewrite Htype. simpl. now rewrite Hval.
Qed.

(** X5. A required field whose source property has a type the extractor has
    no branch for (people, files, relation, ...) extracts to [None], counts
    as missing, and so blocks the page: [sync_page] raises without calling
    the collaborator, whatever the destination schema. *)
Theorem unsupported_source_type_blocks_the_page (page type : pyval)
    (props prop : list (string * pyval)) (name : string) :
  py_getitem page "properties" = Ok (PyDict props) ->
  dict_get name props = Some (PyDict prop) ->
  dict_get "type" prop = Some type ->
  has_tag extractor_tags type = false ->
  name ∈ properties_to_sync ->
  extract_property_value page name = Ok PyNone /\
  forall slave pt w r w',
    sync_page py_repr notion page slave pt w = (r, w') ->
    trace w' = trace w /\ exists e, r = Raise e.
Proof.
  intros Hprops Hprop Htype Htag Hname.
  assert (Hnone : extract_property_value page name = Ok PyNone).
  { rewrite (extract_property_value_found _ _ _ _ Hprops Hprop).
    simpl. rewrite Htype. simpl.
    unfold has_tag, extractor_tags in Htag. simpl in Htag.
    repeat (apply orb_false_elim in Htag as [-> Htag]). done. }
  split; [exact Hnone|].
  intros slave pt w r w' Hrun.
  apply sync_page_issued in Hrun as (_ & [Hquiet|(new & Hscan & _)]);
    [exact Hquiet|].
  exfalso.
  apply sync_fields_ok in Hscan as (Hmiss & _ & _). cbn [app] in Hmiss.
  assert (Hin : name ∈ List.filter (is_missing page) properties_to_sync).
  { apply list_elem_of_In, filter_In. split; [now apply list_elem_of_In|].
    unfold is_missing. now rewrite Hnone. }
  rewrite <- Hmiss in Hin. inversion Hin.
Qed.

(** X6. The encoder raises in one situation and with one exception: under a
    multi-select tag, for [True] or a number other than zero, which cannot be
    iterated, it raises [TypeError]. *)
Theorem encoder_raises_only_on_uniterable_choices (name : string)
    (value type : pyval) (e : exn) :
  create_property_object py_repr name value type = Raise e <->
  type = PyStr "multi_select" /\ e = TypeError /\
  (value = PyBool true \/
   (exists z, value = PyInt z /\ z <> 0) \/
   (exists f, value = PyFloat f /\ PrimFloat.eqb f PrimFloat.zero = false)).
Proof.
  rewrite create_property_object_raises. split.
  - intros (Htype & Htrue & Hiter). apply py_eq_str_true in Htype.
    split; [exact Htype|].
    destruct value as [|b|z|f|s|l|d]; simpl in Htrue, Hiter;
      try discriminate; injection Hiter as <-; (split; [done|]).
    + left. now subst b.
    + right. left. exists z. split; [done|].
      apply negb_true_iff, Z.eqb_neq in Htrue. exact Htrue.
    + right. right. exists f. split; [done|]. now apply negb_true_iff.
  - intros (-> & -> & [->|[(z & -> & Hz)|(f & -> & Hf)]]); simpl.
    + done.
    + split; [done|]. split; [|done].
      now apply negb_true_iff, Z.eqb_neq.
    + split; [done|]. split; [|done]. now apply negb_true_iff.
Qed.

(** X7. What the encoder returns has one of two shapes: [None], for a tag
    it has no branch for, or an object whose one key is the tag itself. *)
Theorem encoder_output_shape (name : string) (value type object : pyval) :
  create_property_object py_repr name value type = Ok object ->
  (object = PyNone /\ has_tag encoder_tags type = false) \/
  (exists tag x,
     type = PyStr tag /\ tag ∈ encoder_tags /\ object = PyDict [(tag, x)]).
Proof.
  intros Hc.
  destruct (has_tag encoder_tags type) eqn:Htag.
  - right. unfold has_tag in Htag.
    apply existsb_exists in Htag as (tag & Hin & Heq).
    apply py_eq_str_true in Heq. subst type. exists tag.
    apply list_elem_of_In in Hin.
    assert (Hshape : exists x, object = PyDict [(tag, x)]).
    { unfold encoder_tags in Hin. unfold create_property_object in Hc.
      repeat (apply elem_of_cons in Hin as [->|Hin];
              [simpl in Hc;
               destruct (py_truthy value); try destruct (py_iter value);
               simpl in Hc; try discriminate Hc;
               injection Hc as <-; eexists; reflexivity|]).
      inversion Hin. }
    destruct Hshape as [x ->]. now exists x.
  - left. split; [|done].
    rewrite (create_property_object_unhandled _ _ _ Htag) in Hc.
    now injection Hc as <-.
Qed.

(** X8. Six of the eight encodings go by the truth of the value, two by its
    being [None]: a false value (zero, [False], an empty mapping) is written
    as an empty text, an unset choice, date or url, or no choices, while a
    number and a checkbox keep any value but [None]. *)
Theorem encoder_erases_false_values (name : string) (value : pyval) :
  py_truthy value = false ->
  value <> PyNone ->
  create_property_object py_repr name value (PyStr "title")
  = Ok (PyDict [("title", PyList [text_object ""])]) /\
  create_property_object py_repr name value (PyStr "rich_text")
  = Ok (PyDict [("rich_text", PyList [text_object ""])]) /\
  create_property_object py_repr name value (PyStr "select")
  = Ok (PyDict [("select", PyNone)]) /\
  create_property_object py_repr name value (PyStr "multi_select")
  = Ok (PyDict [("multi_select", PyList [])]) /\
  create_property_object py_repr name value (PyStr "date")
  = Ok (PyDict [("date", PyNone)]) /\
  create_property_object py_repr name value (PyStr "url")
  = Ok (PyDict [("url", PyNone)]) /\
  create_property_object py_repr name value (PyStr "number")
  = Ok (PyDict [("number", value)]) /\
  create_property_object py_repr name value (PyStr "checkbox")
  = Ok (PyDict [("checkbox", value)]).
Proof.
  intros Hfalse Hsome. unfold create_property_object. simpl.
  rewrite Hfalse. repeat split; try reflexivity; now destruct value.
Qed.

(** X9. Under a multi-select tag the encoder makes one option of whatever
    iterating the value gives: one per item of a list, and one per character
    of a string, so that a name meant as one choice is split. *)
Theorem choices_follow_the_iteration (name : string) :
  (forall items,
     create_property_object py_repr name (PyList items) (PyStr "multi_select")
     = Ok (PyDict [("multi_select",
                    PyList (map (fun item => PyDict [("name", item)]) items))]))
  /\
  (forall s,
     exists options,
       create_property_object py_repr name (PyStr s) (PyStr "multi_select")
       = Ok (PyDict [("multi_select", PyList options)]) /\
       options = map (fun item => PyDict [("name", item)]) (chars s) /\
       length options = String.length s).
Proof.
  split.
  - intros items. unfold create_property_object. simpl. now destruct items.
  - intros s. exists (map (fun item => PyDict [("name", item)]) (chars s)).
    split; [|split; [done|]].
    + unfold create_property_object. simpl. now destruct s.
    + rewrite length_map. induction s as [|a s IH]; simpl; [done|].
      now rewrite IH.
Qed.

(** ** Further properties of [sync_page] and of the loop of [main] *)

(** X10. The mapping [sync_page] submits has as its keys the required fields
    the destination schema has a tag for, and no other: a required field
    unknown to the schema is left out without an error, and a field of the
    schema that is not required is never written. *)
Theorem submitted_keys_are_required_and_known (page slave : pyval)
    (pt : gmap string pyval) (w w' : world) (r : result pyval)
    (parent : pyval) (props : gmap string pyval) (o : result pyval) :
  sync_page py_repr notion page slave pt w = (r, w') ->
  Event (PagesCreate parent props) o ∈ issued w w' ->
  dom props = list_to_set properties_to_sync ∩ dom pt.
Proof.
  intros Hrun Hev.
  pose proof (sync_page_created _ _ _ _ _ _ _ _ _ Hrun Hev) as Hscan.
  apply sync_fields_ok in Hscan as (Hmiss & _ & Hk). cbn [app] in Hmiss.
  apply set_eq. intros k.
  rewrite elem_of_intersection, !elem_of_dom, elem_of_list_to_set.
  destruct (Hk k) as [(object & Hin & (value & type & _ & _ & Ht & _) & Hl)
                     |[Hc Hl]].
  - rewrite Hl, Ht. split; [intros _; split; [done|eauto]|eauto].
  - rewrite Hl, lookup_empty. split; [intros [? [=]]|].
    intros [Hin Hpt]. exfalso. destruct Hc as [Hc|[Hc|Hc]].
    + done.
    + assert (Hf : k ∈ List.filter (is_missing page) properties_to_sync).
      { apply list_elem_of_In, filter_In.
        split; [now apply list_elem_of_In|done]. }
      rewrite <- Hmiss in Hf. inversion Hf.
    + rewrite Hc in Hpt. now destruct Hpt.
Qed.

(** X11. [sync_page] prints nothing and calls the collaborator at most once.
    When it calls, the call is a creation under the slave database and what
    [sync_page] returns or raises is what the call returned or raised; when
    it does not call, it raises. *)
Theorem sync_page_calls_at_most_once (page slave : pyval)
    (pt : gmap string pyval) (w w' : world) (r : result pyval) :
  sync_page py_repr notion page slave pt w = (r, w') ->
  stdout w' = stdout w /\
  ((issued w w' = [] /\ exists e, r = Raise e) \/
   (exists new, issued w w' = [Event (create_in slave new) r] /\
                r = notion (trace w) (create_in slave new))).
Proof.
  intros Hrun.
  apply sync_page_issued in Hrun as (Hout & [[Htr He]|(new & _ & Htr & Hr)]).
  - split; [done|]. left. split; [now apply issued_refl|done].
  - split; [done|]. right. exists new. split; [now apply issued_app|done].
Qed.

Lemma accepted_updates_app (evs evs' : list event) :
  accepted_updates (evs ++ evs')
  = (accepted_updates evs ++ accepted_updates evs')%list.
Proof.
  induction evs as [|[[| | |page_id properties] [x|e]] evs IH]; simpl;
    try done. now rewrite IH.
Qed.

(** What the [try] body leaves behind on a page that has an id: it ends
    normally exactly when its last call is an accepted update to Synced, and
    no other update of it is accepted. *)
Lemma sync_attempt_cases (i : nat) (pts page slave pid : pyval)
    (pt : gmap string pyval) (w w1 : world) (r : result unit) :
  py_getitem page "id" = Ok pid ->
  sync_attempt py_repr notion i pts page slave pt w = (r, w1) ->
  exists evs,
    trace w1 = (trace w ++ evs)%list /\
    (((exists e, r = Raise e) /\ accepted_updates evs = []) \/
     (r = Ok tt /\
      accepted_updates evs = [(pid, status_properties "Synced")])).
Proof.
  intros Hid. unfold sync_attempt, bind at 1, lift at 1.
  destruct (extract_property_value page "Name") as [name|e].
  2: { intros [= <- <-]. exists []. rewrite app_nil_r. eauto 6. }
  unfold bind at 1, lift at 1.
  destruct (py_len pts) as [total|e].
  2: { intros [= <- <-]. exists []. rewrite app_nil_r. eauto 6. }
  unfold bind at 1, print at 1. unfold bind at 1.
  match goal with
  | |- context [sync_page _ _ _ _ _ ?w0] =>
      destruct (sync_page py_repr notion page slave pt w0)
        as [created w0'] eqn:Hsp
  end.
  apply sync_page_issued in Hsp as (_ & Hsp). cbn [trace] in Hsp.
  destruct Hsp as [[Htr (e & ->)]|(new & _ & Htr & _)].
  { intros [= <- <-]. exists []. rewrite app_nil_r. eauto 6. }
  destruct created as [new_page|e].
  2: { intros [= <- <-]. eexists. split; [exact Htr|]. left. eauto. }
  unfold bind at 1, lift at 1. rewrite Hid.
  unfold bind at 1. rewrite update_sync_status_run, Htr.
  destruct (notion _ (mark pid "Synced")) as [updated|e].
  - unfold print. intros [= <- <-]. cbn [trace].
    eexists. split; [now rewrite <- app_assoc|]. right. done.
  - intros [= <- <-]. cbn [trace].
    eexists. split; [now rewrite <- app_assoc|]. left. eauto.
Qed.

(** One turn on a page with an id, when the collaborator accepts the update
    to Failed: the turn ends normally and exactly one status update of it is
    accepted, to Synced or to Failed. *)
Lemma process_page_terminal (i : nat) (pts page slave pid : pyval)
    (pt : gmap string pyval) (w : world) :
  py_getitem page "id" = Ok pid ->
  (forall h, exists x, notion h (mark pid "Failed") = Ok x) ->
  exists w' evs status,
    process_page py_repr exn_message notion i pts page slave pt w
    = (Ok tt, w') /\
    trace w' = (trace w ++ evs)%list /\
    accepted_updates evs = [(pid, status_properties status)] /\
    (status = "Synced" \/ status = "Failed").
Proof.
  intros Hid Hfailed.
  destruct (sync_attempt py_repr notion i pts page slave pt w)
    as [r w1] eqn:Hatt.
  destruct (sync_attempt_cases _ _ _ _ _ _ _ _ _ Hid Hatt)
    as (evs & Htr & [[(e & ->) Hnone]|[-> Hone]]).
  - rewrite (process_page_caught _ _ _ _ _ _ _ _ Hatt).
    rewrite (mark_failed_run _ _ _ _ _ Hid).
    destruct (Hfailed (trace w1)) as [x Hx]. rewrite Hx.
    eexists _, (evs ++ [Event (mark pid "Failed") (Ok x)])%list, "Failed".
    split; [reflexivity|]. cbn [trace].
    split; [now rewrite Htr, <- app_assoc|].
    split; [|now right]. rewrite accepted_updates_app, Hnone. done.
  - rewrite (process_page_passed _ _ _ _ _ _ _ Hatt).
    exists w1, evs, "Synced". repeat split; try done. now left.
Qed.

Lemma process_pages_terminal (pts slave : pyval) (pages ids : list pyval)
    (pt : gmap string pyval) :
  Forall2 (fun page pid => py_getitem page "id" = Ok pid) pages ids ->
  (forall pid h, pid ∈ ids -> exists x, notion h (mark pid "Failed") = Ok x) ->
  forall i w,
  exists w' evs,
    process_pages py_repr exn_message notion i pts pages slave pt w
    = (Ok tt, w') /\
    trace w' = (trace w ++ evs)%list /\
    map fst (accepted_updates evs) = ids /\
    Forall (fun update =>
              snd update = status_properties "Synced" \/
              snd update = status_properties "Failed")
           (accepted_updates evs).
Proof.
  induction 1 as [|page pid pages ids Hid _ IH]; intros Hfailed i w.
  - exists w, []. rewrite app_nil_r. done.
  - destruct (process_page_terminal i pts page slave pid pt w Hid)
      as (w1 & evs & status & Hturn & Htr & Hacc & Hstatus).
    { intros h. apply Hfailed, list_elem_of_here. }
    destruct (IH (fun pid' h Hin =>
                    Hfailed pid' h (list_elem_of_further _ _ _ Hin))
                 (S i) w1) as (w' & evs' & Hrest & Htr' & Hfst & Hall).
    exists w', (evs ++ evs')%list. split.
    { cbn [process_pages]. unfold bind at 1. now rewrite Hturn. }
    split; [now rewrite Htr', Htr, <- app_assoc|].
    rewrite accepted_updates_app, Hacc. cbn [app map fst].
    split; [now rewrite Hfst|].
    constructor; [|done]. cbn [snd].
    destruct Hstatus as [-> | ->]; [now left|now right].
Qed.

(** X12. If every page of the run has an id and the collaborator accepts
    every update of such a page to Failed, the loop ends normally and each
    page receives exactly one accepted status update, in the order of the
    pages, and each of these sets Synced or Failed. *)
Theorem every_page_gets_one_final_status (i : nat) (pts slave : pyval)
    (pages ids : list pyval) (pt : gmap string pyval) (w : world) :
  Forall2 (fun page pid => py_getitem page "id" = Ok pid) pages ids ->
  (forall pid h, pid ∈ ids -> exists x, notion h (mark pid "Failed") = Ok x) ->
  exists w',
    process_pages py_repr exn_message notion i pts pages slave pt w
    = (Ok tt, w') /\
    map fst (accepted_updates (issued w w')) = ids /\
    Forall (fun update =>
              snd update = status_properties "Synced" \/
              snd update = status_properties "Failed")
           (accepted_updates (issued w w')).
Proof.
  intros Hids Hfailed.
  destruct (process_pages_terminal pts slave pages ids pt Hids Hfailed i w)
    as (w' & evs & Hrun & Htr & Hfst & Hall).
  exists w'. rewrite (issued_app _ _ _ Htr). done.
Qed.

(** ** Further properties of [get_master_pages] *)

Lemma initial_query_selecting (limit : option Z) :
  selecting limit (initial_query limit).
Proof.
  split; [apply initial_query_filter|].
  unfold initial_query. destruct limit as [n|]; simpl.
  - apply lookup_insert_eq.
  - now rewrite lookup_singleton_ne.
Qed.

Lemma cursor_keeps_selecting (limit : option Z) (query : gmap string pyval)
    (cursor : pyval) :
  selecting limit query -> selecting limit (<["start_cursor" := cursor]> query).
Proof. intros [Hf Hp]. split; now rewrite lookup_insert_ne. Qed.

(** One test and one run of the body of the loop make at most one call, a
    query, which differs from the query before in the cursor only. *)
Lemma loop_step_queries (db : pyval) (limit : option Z)
    (query : gmap string pyval) (response pages : pyval) (w w' : world)
    (r : result loop_state) :
  selecting limit query ->
  loop_step notion db limit query response pages w = (r, w') ->
  stdout w' = stdout w /\
  (exists evs, trace w' = (trace w ++ evs)%list /\
               Forall (selection_query db limit) evs) /\
  (forall query' response' pages',
     r = Ok (Looping query' response' pages') -> selecting limit query').
Proof.
  intros Hsel. unfold loop_step, bind at 1, lift at 1.
  assert (Hquiet : forall (x : result loop_state),
            (forall q r' p, x <> Ok (Looping q r' p)) ->
            (x, w) = (r, w') ->
            stdout w' = stdout w /\
            (exists evs, trace w' = (trace w ++ evs)%list /\
                         Forall (selection_query db limit) evs) /\
            (forall query' response' pages',
               r = Ok (Looping query' response' pages') ->
               selecting limit query')).
  { intros x Hx [= <- <-]. split; [done|]. split.
    - exists []. now rewrite app_nil_r.
    - intros q r' p Heq. now destruct (Hx q r' p). }
  destruct (loop_condition limit response pages) as [[|]|e]; cbn [negb].
  2: { apply Hquiet. intros q r' p [=]. }
  2: { apply Hquiet. intros q r' p [=]. }
  unfold bind at 1, lift at 1.
  destruct (py_get response "next_cursor" PyNone) as [cursor|e].
  2: { apply Hquiet. intros q r' p [=]. }
  set (query' := <["start_cursor" := cursor]> query).
  assert (Hsel' : selecting limit query')
    by now apply cursor_keeps_selecting.
  unfold bind at 1, api at 1.
  set (ev := Event (DatabasesQuery db query')
                   (notion (trace w) (DatabasesQuery db query'))).
  assert (Hev : selection_query db limit ev).
  { now exists query'. }
  assert (Hcalled : forall (x : result loop_state),
            (forall q r' p, x = Ok (Looping q r' p) -> q = query') ->
            (x, {| trace := trace w ++ [ev]; stdout := stdout w |}) = (r, w') ->
            stdout w' = stdout w /\
            (exists evs, trace w' = (trace w ++ evs)%list /\
                         Forall (selection_query db limit) evs) /\
            (forall query'' response' pages',
               r = Ok (Looping query'' response' pages') ->
               selecting limit query'')).
  { intros x Hx [= <- <-]. split; [done|]. split.
    - exists [ev]. split; [done|]. now constructor.
    - intros q r' p Heq. now rewrite (Hx q r' p Heq). }
  destruct (notion (trace w) (DatabasesQuery db query')) as [response'|e].
  2: { apply Hcalled. intros q r' p [=]. }
  unfold bind at 1, lift at 1.
  destruct (py_get response' "results" (PyList [])) as [results'|e].
  2: { apply Hcalled. intros q r' p [=]. }
  unfold bind at 1, lift at 1.
  destruct (py_extend pages results') as [pages'|e].
  2: { apply Hcalled. intros q r' p [=]. }
  destruct limit as [n|].
  - unfold bind at 1, lift at 1.
    destruct (py_len pages') as [len|e].
    2: { apply Hcalled. intros q r' p [=]. }
    destruct (n <=? len).
    + unfold bind, lift, ret.
      destruct (py_slice_to pages' n) as [sliced|e];
        apply Hcalled; intros q r' p [=].
    + apply Hcalled. now intros q r' p [= -> _ _].
  - apply Hcalled. now intros q r' p [= -> _ _].
Qed.

Lemma run_loop_queries (db : pyval) (limit : option Z) (fuel : nat) :
  forall (st : loop_state) (w w' : world) (r : result pyval),
    (forall query response pages,
       st = Looping query response pages -> selecting limit query) ->
    run_loop notion fuel db limit st w = Some (r, w') ->
    stdout w' = stdout w /\
    exists evs, trace w' = (trace w ++ evs)%list /\
                Forall (selection_query db limit) evs.
Proof.
  induction fuel as [|fuel IH]; intros st w w' r Hst Hrun.
  - destruct st as [query response pages|pages]; [discriminate Hrun|].
    injection Hrun as <- <-. split; [done|].
    exists []. now rewrite app_nil_r.
  - destruct st as [query response pages|pages].
    2: { injection Hrun as <- <-. split; [done|].
         exists []. now rewrite app_nil_r. }
    cbn [run_loop] in Hrun.
    destruct (loop_step notion db limit query response pages w)
      as [[st'|e] w1] eqn:Hstep.
    + destruct (loop_step_queries db limit query response pages w w1 _
                  (Hst _ _ _ eq_refl) Hstep)
        as (Hout & (evs & Htr & Hall) & Hnext).
      apply IH in Hrun as (Hout' & evs' & Htr' & Hall').
      * split; [congruence|]. exists (evs ++ evs')%list.
        split; [now rewrite Htr', Htr, <- app_assoc|].
        now apply Forall_app.
      * intros q r' p ->. now apply (Hnext q r' p).
    + injection Hrun as <- <-.
      destruct (loop_step_queries db limit query response pages w w1 _
                  (Hst _ _ _ eq_refl) Hstep)
        as (Hout & Hevs & _).
      done.
Qed.

Lemma get_master_pages_queries (fuel : nat) (db : pyval) (limit : option Z)
    (w w' : world) (r : result pyval) :
  get_master_pages notion fuel db limit w = Some (r, w') ->
  exists evs, trace w' = (trace w ++ evs)%list /\
              Forall (selection_query db limit) evs.
Proof.
  unfold get_master_pages. unfold bind at 1, api at 1.
  set (query := initial_query limit).
  set (ev := Event (DatabasesQuery db query)
                   (notion (trace w) (DatabasesQuery db query))).
  assert (Hev : selection_query db limit ev).
  { exists query. split; [done|]. apply initial_query_selecting. }
  destruct (notion (trace w) (DatabasesQuery db query)) as [response|e].
  2: { intros [= <- <-]. exists [ev]. split; [done|]. now constructor. }
  unfold bind at 1, lift at 1.
  destruct (py_get response "results" (PyList [])) as [pages|e].
  2: { intros [= <- <-]. exists [ev]. split; [done|]. now constructor. }
  unfold ret.
  destruct (run_loop notion fuel db limit (Looping query response pages) _)
    as [[[found|e] w1]|] eqn:Hloop; [| |discriminate].
  - apply run_loop_queries in Hloop as (_ & evs & Htr & Hall).
    2: { intros q r' p [= <- _ _]. apply initial_query_selecting. }
    cbn [trace] in Htr.
    unfold bind, lift, print, ret.
    destruct (py_len found); intros [= <- <-]; cbn [trace];
      exists (ev :: evs); (split; [now rewrite Htr, <- app_assoc|]);
      now constructor.
  - apply run_loop_queries in Hloop as (_ & evs & Htr & Hall).
    2: { intros q r' p [= <- _ _]. apply initial_query_selecting. }
    cbn [trace] in Htr. intros [= <- <-].
    exists (ev :: evs). split; [now rewrite Htr, <- app_assoc|].
    now constructor.
Qed.

(** X13. Whatever the collaborator answers and however the selection ends,
    every call [get_master_pages] makes is a query of the master database
    that carries the filter of the script and, exactly when there is a
    limit, the page size [min(limit, 100)]; it never creates or updates. *)
Theorem selection_only_queries (fuel : nat) (db : pyval) (limit : option Z)
    (w w' : world) (r : result pyval) :
  get_master_pages notion fuel db limit w = Some (r, w') ->
  Forall (selection_query db limit) (issued w w') /\
  Forall (fun ev => is_write ev = false) (issued w w').
Proof.
  intros Hrun.
  apply get_master_pages_queries in Hrun as (evs & Htr & Hall).
  rewrite (issued_app _ _ _ Htr). split; [done|].
  eapply Forall_impl; [exact Hall|].
  intros ev (query & Hcall & _). unfold is_write. now rewrite Hcall.
Qed.

(** X14. When the first page announces no further page, or already holds as
    many records as the limit asks for, or more, [get_master_pages] makes no
    second query and returns the records of that page as they came, all of
    them, and prints their number. *)
Theorem first_page_is_returned_whole (fuel : nat) (db : pyval)
    (limit : option Z) (p : query_page) (w : world) :
  notion (trace w) (DatabasesQuery db (initial_query limit))
  = Ok (response_of p) ->
  has_more p = false \/
  (exists n, limit = Some n /\ n <= Z.of_nat (length (results p))) ->
  get_master_pages notion (S fuel) db limit w
  = Some (Ok (PyList (results p)),
          {| trace := trace w ++ [Event (DatabasesQuery db (initial_query limit))
                                        (Ok (response_of p))];
             stdout := stdout w ++
                       ["Total pages retrieved: "
                        ++ pretty (Z.of_nat (length (results p)))] |}).
Proof.
  intros Hfirst Hstop.
  unfold get_master_pages. unfold bind at 1, api at 1. rewrite Hfirst.
  unfold bind at 1, lift at 1. rewrite response_results. unfold ret.
  cbn [run_loop]. rewrite (loop_step_stops _ _ _ _ _ _ Hstop).
  rewrite run_loop_finished. reflexivity.
Qed.

(** X15. A response of the collaborator that says nothing of further pages
    ends the selection: without a ["has_more"] key the first response is the
    last, and what it holds under ["results"] is returned, or the empty list
    when it has no such key either. *)
Theorem silent_response_ends_the_selection (fuel : nat) (db : pyval)
    (limit : option Z) (response : list (string * pyval))
    (found : list pyval) (w : world) :
  notion (trace w) (DatabasesQuery db (initial_query limit))
  = Ok (PyDict response) ->
  dict_get "has_more" response = None ->
  default (PyList []) (dict_get "results" response) = PyList found ->
  get_master_pages notion (S fuel) db limit w
  = Some (Ok (PyList found),
          {| trace := trace w ++ [Event (DatabasesQuery db (initial_query limit))
                                        (Ok (PyDict response))];
             stdout := stdout w ++
                       ["Total pages retrieved: "
                        ++ pretty (Z.of_nat (length found))] |}).
Proof.
  intros Hfirst Hmore Hfound.
  assert (Hresults : py_get (PyDict response) "results" (PyList [])
                     = Ok (PyList found)).
  { unfold py_get. destruct (dict_get "results" response);
      simpl in Hfound; now rewrite Hfound. }
  unfold get_master_pages. unfold bind at 1, api at 1. rewrite Hfirst.
  unfold bind at 1, lift at 1. rewrite Hresults. unfold ret.
  cbn [run_loop]. unfold loop_step, loop_condition, bind at 1, lift at 1.
  unfold py_get at 1. rewrite Hmore. cbn [rbind py_truthy negb].
  unfold ret. rewrite run_loop_finished. reflexivity.
Qed.

(** Without a last page the loop does not end: it stays in its looping
    state whatever the fuel. *)
Lemma run_loop_without_last_page (db : pyval) (limit : option Z) :
  (forall h query, exists p,
     notion h (DatabasesQuery db query) = Ok (response_of p) /\
     has_more p = true /\ (limit = None \/ results p = [])) ->
  forall fuel query p acc w,
    has_more p = true ->
    (forall n, limit = Some n -> Z.of_nat (length acc) < n) ->
    run_loop notion fuel db limit (Looping query (response_of p) (PyList acc)) w
    = None.
Proof.
  intros Hmore. induction fuel as [|fuel IH]; intros query p acc w Hp Hacc.
  - reflexivity.
  - cbn [run_loop].
    destruct (Hmore (trace w) (<["start_cursor" := next_cursor p]> query))
      as (p' & Hq & Hp' & Hkeep).
    rewrite (loop_step_fetches db limit query p p' acc w Hp Hacc Hq).
    destruct limit as [n|].
    + destruct Hkeep as [|Hnone]; [discriminate|].
      rewrite Hnone, app_nil_r.
      rewrite (proj2 (Z.leb_gt _ _) (Hacc n eq_refl)).
      now apply IH.
    + apply IH; [done|]. intros n [=].
Qed.

(** X16. The loop of [get_master_pages] has no bound of its own: with a
    collaborator that announces a further page on every response, the
    selection does not end when there is no limit, nor when the limit is
    positive and the responses hold no record. *)
Theorem selection_needs_a_last_page (fuel : nat) (db : pyval)
    (limit : option Z) (w : world) :
  (forall n, limit = Some n -> 0 < n) ->
  (forall h query, exists p,
     notion h (DatabasesQuery db query) = Ok (response_of p) /\
     has_more p = true /\ (limit = None \/ results p = [])) ->
  get_master_pages notion fuel db limit w = None.
Proof.
  intros Hpos Hmore.
  unfold get_master_pages. unfold bind at 1, api at 1.
  destruct (Hmore (trace w) (initial_query limit)) as (p & Hq & Hp & Hkeep).
  rewrite Hq. unfold bind at 1, lift at 1. rewrite response_results.
  unfold ret.
  rewrite (run_loop_without_last_page db limit Hmore); [done|done|].
  intros n ->. destruct Hkeep as [Hno| ->]; [discriminate Hno|]. now apply Hpos.
Qed.

(** X17. [get_master_pages] prints exactly when it returns: one line, which
    counts what it returns; when it raises, in the first query or in a later
    one, it prints nothing and the records fetched so far are lost. *)
Theorem selection_prints_its_count (fuel : nat) (db : pyval)
    (limit : option Z) (w w' : world) (r : result pyval) :
  get_master_pages notion fuel db limit w = Some (r, w') ->
  match r with
  | Ok found =>
      exists n, py_len found = Ok n /\
                stdout w'
                = (stdout w ++ [("Total pages retrieved: " ++ pretty n)%string])%list
  | Raise _ => stdout w' = stdout w
  end.
Proof.
  unfold get_master_pages. unfold bind at 1, api at 1.
  destruct (notion (trace w) (DatabasesQuery db (initial_query limit)))
    as [response|e].
  2: { now intros [= <- <-]. }
  unfold bind at 1, lift at 1.
  destruct (py_get response "results" (PyList [])) as [pages|e].
  2: { now intros [= <- <-]. }
  unfold ret.
  destruct (run_loop notion fuel db limit _ _) as [[[found|e] w1]|] eqn:Hloop;
    [| |discriminate].
  - apply run_loop_queries in Hloop as (Hout & _).
    2: { intros q r' p [= <- _ _]. apply initial_query_selecting. }
    cbn [stdout] in Hout. unfold bind, lift, print, ret.
    destruct (py_len found) as [n|e] eqn:Hlen; intros [= <- <-].
    + exists n. cbn [stdout]. now rewrite Hout.
    + done.
  - apply run_loop_queries in Hloop as (Hout & _).
    2: { intros q r' p [= <- _ _]. apply initial_query_selecting. }
    now intros [= <- <-].
Qed.

(** ** Further properties of [map_property_types] and of [main] *)

Lemma dict_get_absent (name : string) (items : list (string * pyval)) :
  name ∉ map fst items -> dict_get name items = None.
Proof.
  induction items as [|[k v] items IH]; simpl; [done|].
  intros Hnot. apply not_elem_of_cons in Hnot as [Hne Hnot].
  destruct (String.eqb k name) eqn:Hk.
  - apply String.eqb_eq in Hk. congruence.
  - now apply IH.
Qed.

Lemma collect_types_lookup (items : list (string * pyval)) :
  NoDup (map fst items) ->
  forall acc pt,
    collect_types items acc = Ok pt ->
    forall name,
      pt !! name = match dict_get name items with
                   | Some prop => declared_type prop
                   | None => acc !! name
                   end.
Proof.
  induction items as [|[k prop] items IH]; intros Hnd acc pt Hc name.
  - injection Hc as <-. done.
  - simpl in Hnd. apply NoDup_cons in Hnd as [Hfresh Hnd].
    simpl in Hc.
    destruct (py_getitem prop "type") as [type|e] eqn:Htype;
      simpl in Hc; [|discriminate Hc].
    rewrite (IH Hnd _ _ Hc name). simpl.
    destruct (String.eqb k name) eqn:Hk.
    + apply String.eqb_eq in Hk. subst k.
      rewrite (dict_get_absent _ _ Hfresh), lookup_insert_eq.
      unfold declared_type. now rewrite Htype.
    + apply String.eqb_neq in Hk.
      destruct (dict_get name items); [done|]. now rewrite lookup_insert_ne.
Qed.

Lemma collect_types_raises (items : list (string * pyval)) :
  forall acc name prop,
    (name, prop) ∈ items -> declared_type prop = None ->
    exists e, collect_types items acc = Raise e.
Proof.
  induction items as [|[k p] items IH]; intros acc name prop Hin Hnone.
  - inversion Hin.
  - simpl. unfold declared_type in Hnone.
    apply elem_of_cons in Hin as [[= <- <-]|Hin].
    + destruct (py_getitem prop "type"); [discriminate Hnone|]. eauto.
    + destruct (py_getitem p "type"); simpl; [|eauto].
      now apply (IH _ name prop).
Qed.

(** X18. When the collaborator describes the slave database with a mapping
    of properties, [map_property_types] makes that one call and, if it
    returns, its result holds under each name of the mapping the type tag
    the property declares, and nothing under any other name; if some
    property declares no type it raises. *)
Theorem schema_map_holds_declared_types (db db_info : pyval)
    (items : list (string * pyval)) (w w' : world)
    (r : result (gmap string pyval)) :
  notion (trace w) (DatabasesRetrieve db) = Ok db_info ->
  py_getitem db_info "properties" = Ok (PyDict items) ->
  NoDup (map fst items) ->
  map_property_types notion db w = (r, w') ->
  issued w w' = [Event (DatabasesRetrieve db) (Ok db_info)] /\
  (forall pt name,
     r = Ok pt -> pt !! name = dict_get name items ≫= declared_type) /\
  (forall name prop,
     (name, prop) ∈ items -> declared_type prop = None ->
     exists e, r = Raise e).
Proof.
  intros Hcall Hprops Hnd.
  unfold map_property_types, bind at 1, api at 1. rewrite Hcall.
  unfold bind at 1, lift at 1. rewrite Hprops. unfold lift.
  intros [= <- <-]. split; [now apply issued_app|]. split.
  - intros pt name Hc.
    rewrite (collect_types_lookup items Hnd ∅ pt Hc name).
    destruct (dict_get name items); [done|]. apply lookup_empty.
  - intros name prop Hin Hnone.
    apply (collect_types_raises items ∅ name prop Hin Hnone).
Qed.

Lemma map_property_types_issued (db : pyval) (w w' : world)
    (r : result (gmap string pyval)) :
  map_property_types notion db w = (r, w') ->
  stdout w' = stdout w /\
  trace w' = (trace w ++ [Event (DatabasesRetrieve db)
                                (notion (trace w) (DatabasesRetrieve db))])%list.
Proof.
  unfold map_property_types, bind at 1, api at 1.
  destruct (notion (trace w) (DatabasesRetrieve db)) as [db_info|e].
  2: { now intros [= <- <-]. }
  unfold bind at 1, lift at 1.
  destruct (py_getitem db_info "properties") as [[| | | | | |items]|e];
    unfold raise, lift; now intros [= <- <-].
Qed.

(** X19. A failure before the loop ends the run: when the retrieval of the
    schema raises, or the first query of the selection raises, [main] raises
    that exception, prints nothing, and has made no call that creates or
    updates. *)
Theorem failure_before_the_loop_is_fatal (fuel : nat) (limit : option Z)
    (master slave : pyval) (w : world) (e : exn) :
  notion (trace w) (DatabasesRetrieve slave) = Raise e \/
  (exists pt w1,
     map_property_types notion slave w = (Ok pt, w1) /\
     notion (trace w1) (DatabasesQuery master (initial_query limit))
     = Raise e) ->
  exists w',
    main py_repr exn_message notion fuel limit master slave w
    = Some (Raise e, w') /\
    stdout w' = stdout w /\
    Forall (fun ev => is_write ev = false) (issued w w').
Proof.
  intros [Hretrieve|(pt & w1 & Hschema & Hquery)]; unfold main.
  - unfold map_property_types, bind at 1, api at 1. rewrite Hretrieve.
    eexists. split; [reflexivity|]. split; [done|].
    rewrite (issued_app w _ [Event (DatabasesRetrieve slave) (Raise e)])
      by done.
    now constructor.
  - rewrite Hschema.
    apply map_property_types_issued in Hschema as (Hout & Htr).
    unfold get_master_pages. unfold bind at 1, api at 1. rewrite Hquery.
    eexists. split; [reflexivity|]. cbn [stdout trace]. split; [done|].
    erewrite issued_app; [|cbn [trace]; rewrite Htr, <- app_assoc; reflexivity].
    now repeat constructor.
Qed.

(** X20. When the selection returns nothing (an empty list), [main] ends
    normally after printing that no page needs to be synced, and the run has
    made no call that creates or updates. *)
Theorem empty_selection_writes_nothing (fuel : nat) (limit : option Z)
    (master slave pages : pyval) (pt : gmap string pyval) (w w1 w2 : world) :
  map_property_types notion slave w = (Ok pt, w1) ->
  get_master_pages notion fuel master limit w1 = Some (Ok pages, w2) ->
  py_truthy pages = false ->
  exists w',
    main py_repr exn_message notion fuel limit master slave w
    = Some (Ok tt, w') /\
    stdout w' = (stdout w2 ++ ["No pages need to be synced."])%list /\
    Forall (fun ev => is_write ev = false) (issued w w').
Proof.
  intros Hschema Hselect Hempty. unfold main. rewrite Hschema, Hselect, Hempty.
  cbn [negb]. unfold print. eexists. split; [reflexivity|]. split; [done|].
  apply map_property_types_issued in Hschema as (_ & Htr).
  apply get_master_pages_queries in Hselect as (evs & Htr' & Hall).
  erewrite issued_app;
    [|cbn [trace]; rewrite Htr', Htr, <- app_assoc; reflexivity].
  constructor; [done|].
  eapply Forall_impl; [exact Hall|].
  intros ev (query & Hcall & _). unfold is_write. now rewrite Hcall.
Qed.

(** X21. When the schema and a list of pages have been fetched, every page
    has an id and the collaborator accepts every update of these pages to
    Failed, [main] ends normally whatever happens to the single pages: each
    page receives exactly one accepted status update, in the order of the
    selection, and the last line printed counts the pages of the
    selection. *)
Theorem run_completes_despite_page_failures (fuel : nat) (limit : option Z)
    (master slave page : pyval) (pages ids : list pyval)
    (pt : gmap string pyval) (w w1 w2 : world) :
  map_property_types notion slave w = (Ok pt, w1) ->
  get_master_pages notion fuel master limit w1
  = Some (Ok (PyList (page :: pages)), w2) ->
  Forall2 (fun page pid => py_getitem page "id" = Ok pid)
          (page :: pages) ids ->
  (forall pid h, pid ∈ ids -> exists x, notion h (mark pid "Failed") = Ok x) ->
  exists w',
    main py_repr exn_message notion fuel limit master slave w
    = Some (Ok tt, w') /\
    map fst (accepted_updates (issued w2 w')) = ids /\
    last (stdout w')
    = Some ("Sync completed. "
            ++ pretty (Z.of_nat (length (page :: pages)))
            ++ " pages processed.").
Proof.
  intros Hschema Hselect Hids Hfailed. unfold main.
  rewrite Hschema, Hselect. cbn [py_truthy negb].
  unfold bind at 1, lift at 1. cbn [py_len].
  unfold bind at 1, print at 1. unfold bind at 1, lift at 1.
  cbn [py_iter]. unfold bind at 1.
  destruct (process_pages_terminal (PyList (page :: pages)) slave
              (page :: pages) ids pt Hids Hfailed 1%nat
              {| trace := trace w2;
                 stdout := stdout w2 ++
                   ["Found " ++ pretty (Z.of_nat (length (page :: pages)))
                    ++ " pages to sync."] |})
    as (w3 & evs & Hrun & Htr & Hfst & _).
  rewrite Hrun. unfold bind at 1, lift at 1. cbn [py_len]. unfold print.
  eexists. split; [reflexivity|]. cbn [trace stdout] in *.
  split; [now rewrite (issued_app w2 _ evs)|].
  apply last_snoc.
Qed.

(** What the [try] body writes. *)
Lemma sync_attempt_writes (i : nat) (pts page slave : pyval)
    (pt : gmap string pyval) (w w1 : world) (r : result unit) :
  sync_attempt py_repr notion i pts page slave pt w = (r, w1) ->
  exists evs, trace w1 = (trace w ++ evs)%list /\
              Forall (page_write slave page) evs.
Proof.
  assert (Hnone : forall (x : result unit) (w0 : world),
            trace w0 = trace w -> (x, w0) = (r, w1) ->
            exists evs, trace w1 = (trace w ++ evs)%list /\
                        Forall (page_write slave page) evs).
  { intros x w0 Htr [= <- <-]. exists []. now rewrite app_nil_r. }
  unfold sync_attempt, bind at 1, lift at 1.
  destruct (extract_property_value page "Name") as [name|e];
    [|now apply Hnone].
  unfold bind at 1, lift at 1.
  destruct (py_len pts) as [total|e]; [|now apply Hnone].
  unfold bind at 1, print at 1. unfold bind at 1.
  match goal with
  | |- context [sync_page _ _ _ _ _ ?w0] =>
      destruct (sync_page py_repr notion page slave pt w0)
        as [created w0'] eqn:Hsp
  end.
  apply sync_page_issued in Hsp as (_ & Hsp). cbn [trace] in Hsp.
  destruct Hsp as [[Htr (e & ->)]|(new & _ & Htr & _)];
    [now apply Hnone|].
  assert (Hcreate : page_write slave page (Event (create_in slave new) created)).
  { left. now exists new. }
  destruct created as [new_page|e].
  2: { intros [= <- <-]. eexists. split; [exact Htr|]. now constructor. }
  unfold bind at 1, lift at 1.
  destruct (py_getitem page "id") as [pid|e] eqn:Hid.
  2: { intros [= <- <-]. eexists. split; [exact Htr|]. now constructor. }
  unfold bind at 1. rewrite update_sync_status_run, Htr.
  assert (Hmark : forall o, page_write slave page
                              (Event (mark pid "Synced") o)).
  { intros o. right. exists pid, "Synced". eauto. }
  destruct (notion _ (mark pid "Synced")) as [updated|e];
    unfold print; intros [= <- <-]; cbn [trace];
    (eexists; split; [now rewrite <- app_assoc|]);
    (constructor; [exact Hcreate|]); (constructor; [apply Hmark|]);
    constructor.
Qed.

(** What an [except] clause writes. *)
Lemma mark_failed_writes (headline : string) (page slave : pyval) (e : exn)
    (w w1 : world) (r : result unit) :
  mark_failed exn_message notion headline page e w = (r, w1) ->
  exists evs, trace w1 = (trace w ++ evs)%list /\
              Forall (page_write slave page) evs.
Proof.
  destruct (py_getitem page "id") as [pid|e'] eqn:Hid.
  - rewrite (mark_failed_run _ _ _ _ _ Hid). intros [= <- <-]. cbn [trace].
    eexists. split; [reflexivity|]. constructor; [|done].
    right. exists pid, "Failed". eauto.
  - unfold mark_failed, bind at 1, print at 1. unfold bind at 1, lift at 1.
    rewrite Hid. intros [= <- <-]. exists []. now rewrite app_nil_r.
Qed.

Lemma process_page_writes (i : nat) (pts page slave : pyval)
    (pt : gmap string pyval) (w w' : world) (r : result unit) :
  process_page py_repr exn_message notion i pts page slave pt w = (r, w') ->
  exists evs, trace w' = (trace w ++ evs)%list /\
              Forall (page_write slave page) evs.
Proof.
  destruct (sync_attempt py_repr notion i pts page slave pt w)
    as [[[]|e] w1] eqn:Hatt.
  - rewrite (process_page_passed _ _ _ _ _ _ _ Hatt). intros [= <- <-].
    now apply sync_attempt_writes in Hatt.
  - rewrite (process_page_caught _ _ _ _ _ _ _ _ Hatt). intros Hfail.
    apply sync_attempt_writes in Hatt as (evs & Htr & Hall).
    apply (mark_failed_writes _ _ slave) in Hfail as (evs' & Htr' & Hall').
    exists (evs ++ evs')%list. split; [now rewrite Htr', Htr, <- app_assoc|].
    now apply Forall_app.
Qed.

Lemma process_pages_writes (pts slave : pyval) (pt : gmap string pyval)
    (pages : list pyval) :
  forall i w w' r,
    process_pages py_repr exn_message notion i pts pages slave pt w = (r, w') ->
    exists evs, trace w' = (trace w ++ evs)%list /\
                Forall (fun ev => exists page,
                          page ∈ pages /\ page_write slave page ev) evs.
Proof.
  induction pages as [|page pages IH]; intros i w w' r.
  - intros [= <- <-]. exists []. now rewrite app_nil_r.
  - cbn [process_pages]. unfold bind at 1.
    destruct (process_page py_repr exn_message notion i pts page slave pt w)
      as [[[]|e] w1] eqn:Hturn;
      apply process_page_writes in Hturn as (evs & Htr & Hall).
    + intros Hrest. apply IH in Hrest as (evs' & Htr' & Hall').
      exists (evs ++ evs')%list. split; [now rewrite Htr', Htr, <- app_assoc|].
      apply Forall_app. split.
      * eapply Forall_impl; [exact Hall|]. intros ev Hev.
        exists page. split; [apply list_elem_of_here|done].
      * eapply Forall_impl; [exact Hall'|]. intros ev (page' & Hin & Hev).
        exists page'. split; [now apply list_elem_of_further|done].
    + intros [= <- <-]. exists evs. split; [done|].
      eapply Forall_impl; [exact Hall|]. intros ev Hev.
      exists page. split; [apply list_elem_of_here|done].
Qed.

(** X22. After the selection, whatever the collaborator answers and however
    the run ends, every call of [main] is a creation under the slave
    database or an update, to Synced or to Failed, of the status of a page
    of the selection: it reads nothing more, and it touches no other page of
    the master database. *)
Theorem run_writes_only_for_selected_pages (fuel : nat) (limit : option Z)
    (master slave : pyval) (pages : list pyval) (pt : gmap string pyval)
    (w w1 w2 w' : world) (r : result unit) :
  map_property_types notion slave w = (Ok pt, w1) ->
  get_master_pages notion fuel master limit w1
  = Some (Ok (PyList pages), w2) ->
  main py_repr exn_message notion fuel limit master slave w = Some (r, w') ->
  Forall (fun ev => exists page, page ∈ pages /\ page_write slave page ev)
         (issued w2 w').
Proof.
  intros Hschema Hselect. unfold main. rewrite Hschema, Hselect.
  destruct pages as [|page pages]; cbn [py_truthy negb].
  - unfold print. intros [= <- <-]. now rewrite issued_refl.
  - unfold bind at 1, lift at 1. cbn [py_len].
    unfold bind at 1, print at 1. unfold bind at 1, lift at 1.
    cbn [py_iter]. unfold bind at 1.
    match goal with
    | |- context [process_pages _ _ _ _ _ _ _ _ ?w0] =>
        destruct (process_pages py_repr exn_message notion 1%nat
                    (PyList (page :: pages)) (page :: pages) slave pt w0)
          as [[[]|e] w3] eqn:Hrun
    end;
      apply process_pages_writes in Hrun as (evs & Htr & Hall);
      cbn [trace] in Htr.
    + unfold bind at 1, lift at 1. cbn [py_len]. unfold print.
      intros [= <- <-]. now rewrite (issued_app w2 _ evs).
    + intros [= <- <-]. now rewrite (issued_app w2 _ evs).
Qed.

(** ** [load_environment] *)

(** X23. [load_environment] counts a required variable as missing when it
    is unset or set to the empty string.  If one is missing it prints the
    names of the missing ones, all of them and in the order of the list of
    required variables, and exits with code 1 without any call to the
    collaborator; otherwise it returns the three values, unchanged, and
    prints nothing. *)
Theorem load_environment_checks_every_variable
    (environ : gmap string string) (w : world) :
  (forall var,
     var ∈ missing_vars environ <->
     var ∈ required_vars /\
     (environ !! var = None \/ environ !! var = Some "")) /\
  match load_environment environ w with
  | (Started env, w') =>
      w' = w /\ missing_vars environ = [] /\
      exists key master slave,
        environ !! "NOTION_API_KEY" = Some key /\
        environ !! "MASTER_DB_ID" = Some master /\
        environ !! "SLAVE_DB_ID" = Some slave /\
        env = PyDict [("api_key", PyStr key); ("master_db_id", PyStr master);
                      ("slave_db_id", PyStr slave)]
  | (Exited code, w') =>
      code = 1 /\ missing_vars environ <> [] /\ trace w' = trace w /\
      stdout w'
      = ((stdout w ++
          [("Error: The following required environment variables are missing: "
            ++ join_names (missing_vars environ))%string]) ++
         ["Please add them to your .env file"])%list
  end.
Proof.
  assert (Hmissing : forall var,
            negb (py_truthy (getenv environ var)) = true <->
            environ !! var = None \/ environ !! var = Some "").
  { intros var. unfold getenv.
    destruct (environ !! var) as [value|]; simpl.
    - rewrite negb_involutive, String.eqb_eq.
      split; [intros ->; now right|now intros [|[= ->]]].
    - split; [now left|done]. }
  split.
  - intros var. unfold missing_vars.
    rewrite list_elem_of_In, filter_In, <- list_elem_of_In, Hmissing. done.
  - unfold load_environment.
    destruct (missing_vars environ) as [|var missing] eqn:Hm.
    + split; [done|]. split; [done|].
      assert (Hset : forall var, var ∈ required_vars ->
                exists value, environ !! var = Some value /\
                              getenv environ var = PyStr value).
      { intros var Hvar.
        destruct (negb (py_truthy (getenv environ var))) eqn:Hv.
        - assert (Hin : var ∈ missing_vars environ).
          { unfold missing_vars. apply list_elem_of_In, filter_In.
            split; [now apply list_elem_of_In|done]. }
          rewrite Hm in Hin. inversion Hin.
        - unfold getenv in *. destruct (environ !! var) as [value|];
            [eauto|discriminate Hv]. }
      destruct (Hset "NOTION_API_KEY") as (key & Hk & ->);
        [unfold required_vars; in_list|].
      destruct (Hset "MASTER_DB_ID") as (master & Hma & ->);
        [unfold required_vars; in_list|].
      destruct (Hset "SLAVE_DB_ID") as (slave & Hs & ->);
        [unfold required_vars; in_list|].
      now exists key, master, slave.
    + repeat split; done.
Qed.

End Properties.

(** * Instances *)

(** Runs a tactic on each of the required fields. *)
Ltac each_required_field Hn tac :=
  repeat (apply elem_of_cons in Hn as [->|Hn]; [tac|]); inversion Hn.

Ltac returns_here :=
  eexists; split;
  [vm_compute; reflexivity
  |first [ let Hb := fresh in intros Hb; vm_compute in Hb; discriminate Hb
         | let Ht := fresh in
           intros _ ? Ht; vm_compute in Ht; injection Ht as <-;
           eexists; vm_compute; reflexivity ]].

(** C1 at [sample_page]: the source has ["Niche"] as a select, the destination
    as a rich text, and the submitted mapping holds the rich text. *)
Lemma sync_page_encodes_by_destination_tag_witness :
  exists value object,
    extract_property_value sample_page "Niche" = Ok value /\
    is_blank value = false /\
    create_property_object sample_repr "Niche" value (PyStr "rich_text")
    = Ok object /\
    sample_new_properties !! "Niche" = Some object.
Proof.
  apply (sync_page_encodes_by_destination_tag sample_repr
           (replay [Ok created_page]) sample_page slave_db sample_types
           empty_world
           (snd (sync_page sample_repr (replay [Ok created_page]) sample_page
                           slave_db sample_types empty_world))
           (fst (sync_page sample_repr (replay [Ok created_page]) sample_page
                           slave_db sample_types empty_world))
           (PyDict [("database_id", slave_db)]) sample_new_properties
           (Ok created_page)).
  - apply surjective_pairing.
  - vm_compute. constructor.
  - in_list.
  - vm_compute. reflexivity.
Defined.

(** C2 (amended) at [incomplete_page], which lacks ["Niche"] and has an empty
    ["Author"]. *)
Lemma incomplete_record_is_rejected_witness :
  issued empty_world
    (snd (process_page sample_repr sample_message (replay [Ok updated_page])
            1 (PyList [incomplete_page]) incomplete_page slave_db
            sample_types empty_world))
  = [Event (mark (PyStr "page-2") "Failed") (Ok updated_page)] /\
  "Failed to sync page - Missing or empty required properties: Author, Niche"
  ∈ stdout
      (snd (process_page sample_repr sample_message (replay [Ok updated_page])
              1 (PyList [incomplete_page]) incomplete_page slave_db
              sample_types empty_world)) /\
  fst (process_page sample_repr sample_message (replay [Ok updated_page])
         1 (PyList [incomplete_page]) incomplete_page slave_db
         sample_types empty_world) = Ok tt.
Proof.
  destruct (incomplete_record_is_rejected sample_repr sample_message
              (replay [Ok updated_page]) 1 (PyList [incomplete_page])
              incomplete_page slave_db sample_types empty_world
              (snd (process_page sample_repr sample_message
                      (replay [Ok updated_page]) 1 (PyList [incomplete_page])
                      incomplete_page slave_db sample_types empty_world))
              (fst (process_page sample_repr sample_message
                      (replay [Ok updated_page]) 1 (PyList [incomplete_page])
                      incomplete_page slave_db sample_types empty_world))
              1 (PyStr "page-2"))
    as (_ & _ & Hissued & Hprinted & Hended).
  - intros n Hn. each_required_field Hn returns_here.
  - exists "Niche". split; [in_list|reflexivity].
  - reflexivity.
  - reflexivity.
  - apply surjective_pairing.
  - split; [exact Hissued|]. split; [exact Hprinted|].
    exact (Hended updated_page eq_refl).
Defined.

(** C2 as stated fails on [page_without_niche] when the destination has
    ["Likes"] as a multi-select: ["Niche"] is missing, yet the encoding of the
    number under ["Likes"] raises [TypeError] before the pass reaches
    ["Niche"]; no [ValueError] is raised and what is printed names no
    field. *)
Lemma validation_interrupted_by_encoding :
  is_missing page_without_niche "Niche" = true /\
  multi_select_types !! "Likes" = Some (PyStr "multi_select") /\
  extract_property_value page_without_niche "Likes" = Ok (PyInt 7) /\
  sync_page sample_repr (replay [Ok updated_page]) page_without_niche
            slave_db multi_select_types empty_world
  = (Raise TypeError, empty_world) /\
  stdout (snd (process_page sample_repr sample_message
                 (replay [Ok updated_page]) 1 (PyList [page_without_niche])
                 page_without_niche slave_db multi_select_types empty_world))
  = ["Syncing page 1/1: Launch thread"; "Error syncing page: TypeError";
     "Marked page as Failed and continuing with next page."].
Proof. repeat split; vm_compute; reflexivity. Qed.

(** C3 (amended) on a run of two pages where the creation for the first
    page times out and the update to Failed is accepted. *)
Lemma caught_failure_marks_failed_and_continues_witness :
  exists w2,
    process_page sample_repr sample_message
      (replay [Raise timeout; Ok updated_page]) 1
      (PyList [sample_page; incomplete_page]) sample_page slave_db
      sample_types empty_world = (Ok tt, w2) /\
    trace w2
    = (trace (snd (sync_attempt sample_repr
                     (replay [Raise timeout; Ok updated_page]) 1
                     (PyList [sample_page; incomplete_page]) sample_page
                     slave_db sample_types empty_world))
       ++ [Event (mark (PyStr "page-1") "Failed") (Ok updated_page)])%list /\
    process_pages sample_repr sample_message
      (replay [Raise timeout; Ok updated_page]) 1
      (PyList [sample_page; incomplete_page]) [sample_page; incomplete_page]
      slave_db sample_types empty_world
    = process_pages sample_repr sample_message
        (replay [Raise timeout; Ok updated_page]) 2
        (PyList [sample_page; incomplete_page]) [incomplete_page]
        slave_db sample_types w2.
Proof.
  apply (caught_failure_marks_failed_and_continues sample_repr sample_message
           (replay [Raise timeout; Ok updated_page]) 1
           (PyList [sample_page; incomplete_page]) sample_page slave_db
           [incomplete_page] sample_types empty_world
           (snd (sync_attempt sample_repr
                   (replay [Raise timeout; Ok updated_page]) 1
                   (PyList [sample_page; incomplete_page]) sample_page
                   slave_db sample_types empty_world))
           timeout (PyStr "page-1") updated_page).
  - vm_compute. reflexivity.
  - reflexivity.
  - vm_compute. reflexivity.
Defined.

(** C3 as stated fails when the collaborator stops answering after the
    selection: the creation for the first page raises, an [except] clause
    catches it, the update to Failed raises in turn and nothing catches that.
    The exception leaves [main]; the second page is never attempted and the
    first is not marked. *)
Lemma failed_update_aborts_the_run :
  fst <$> main sample_repr sample_message outage 1 None master_db slave_db
               empty_world
  = Some (Raise timeout) /\
  (trace <$> (snd <$> main sample_repr sample_message outage 1 None master_db
                           slave_db empty_world))
  = Some [Event (DatabasesRetrieve slave_db)
                (Ok (database_with (sample_tags ++ [("Niche", "rich_text")])));
          Event (DatabasesQuery master_db (initial_query None))
                (Ok (response_of long_results));
          Event (create_in slave_db sample_new_properties) (Raise timeout);
          Event (mark (PyStr "page-1") "Failed") (Raise timeout)].
Proof. split; vm_compute; reflexivity. Qed.

(** C4 (amended) at [sample_page] with ["Niche"] an e-mail address in the
    destination. *)
Lemma unhandled_tag_is_submitted_as_none_witness :
  (forall value,
     create_property_object sample_repr "Niche" value (PyStr "email")
     = Ok PyNone) /\
  email_new_properties !! "Niche" = Some PyNone.
Proof.
  destruct (unhandled_tag_is_submitted_as_none sample_repr
              (replay [Ok created_page]) sample_page slave_db email_types
              empty_world
              (snd (sync_page sample_repr (replay [Ok created_page])
                              sample_page slave_db email_types empty_world))
              (fst (sync_page sample_repr (replay [Ok created_page])
                              sample_page slave_db email_types empty_world))
              (PyDict [("database_id", slave_db)]) email_new_properties
              (Ok created_page) "Niche" (PyStr "email"))
    as [Hnone Hkept].
  - reflexivity.
  - split; [exact Hnone|]. apply Hkept.
    + apply surjective_pairing.
    + vm_compute. constructor.
    + in_list.
    + vm_compute. reflexivity.
Defined.

(** C4 as stated fails on [sample_page] under [email_types]: the tag of
    ["Niche"] has no branch in the encoder, and the mapping given to
    [pages.create] has ["Niche"] among its keys, with [None] under it. *)
Lemma unhandled_tag_keeps_its_entry :
  has_tag encoder_tags (PyStr "email") = false /\
  email_types !! "Niche" = Some (PyStr "email") /\
  issued empty_world
    (snd (sync_page sample_repr (replay [Ok created_page]) sample_page
                    slave_db email_types empty_world))
  = [Event (create_in slave_db email_new_properties) (Ok created_page)] /\
  email_new_properties !! "Niche" = Some PyNone /\
  "Niche" ∈ dom email_new_properties.
Proof.
  repeat split; vm_compute; reflexivity.
Qed.

Ltac encoded_here :=
  let Hv := fresh in
  let Ht := fresh in
  intros Hv Ht; vm_compute in Hv, Ht;
  injection Hv as <-; injection Ht as <-;
  eexists; vm_compute; reflexivity.

(** C5 (amended) at [sample_page] under [sample_types], with a collaborator
    that accepts the creation and the update. *)
Lemma complete_record_is_created_before_synced_witness :
  exists new rest,
    dom new = list_to_set properties_to_sync /\
    size new = length properties_to_sync /\
    issued empty_world
      (snd (process_page sample_repr sample_message
              (replay [Ok created_page; Ok updated_page]) 1
              (PyList [sample_page]) sample_page slave_db sample_types
              empty_world))
    = Event (create_in slave_db new)
            (replay [Ok created_page; Ok updated_page] (trace empty_world)
                    (create_in slave_db new)) :: rest /\
    (forall ev, ev ∈ rest ->
                exists status, ev_call ev = mark (PyStr "page-1") status) /\
    (forall o, Event (mark (PyStr "page-1") "Synced") o ∈ rest ->
               exists new_page,
                 replay [Ok created_page; Ok updated_page] (trace empty_world)
                        (create_in slave_db new) = Ok new_page) /\
    (forall new_page updated,
       replay [Ok created_page; Ok updated_page] (trace empty_world)
              (create_in slave_db new) = Ok new_page ->
       replay [Ok created_page; Ok updated_page]
              (trace empty_world
               ++ [Event (create_in slave_db new) (Ok new_page)])
              (mark (PyStr "page-1") "Synced") = Ok updated ->
       fst (process_page sample_repr sample_message
              (replay [Ok created_page; Ok updated_page]) 1
              (PyList [sample_page]) sample_page slave_db sample_types
              empty_world) = Ok tt /\
       rest = [Event (mark (PyStr "page-1") "Synced") (Ok updated)]).
Proof.
  apply (complete_record_is_created_before_synced sample_repr sample_message
           (replay [Ok created_page; Ok updated_page]) 1
           (PyList [sample_page]) sample_page slave_db sample_types
           empty_world _
           (fst (process_page sample_repr sample_message
                   (replay [Ok created_page; Ok updated_page]) 1
                   (PyList [sample_page]) sample_page slave_db sample_types
                   empty_world))
           1 (PyStr "page-1")).
  - intros n Hn.
    each_required_field Hn
      ltac:(eexists; split; vm_compute; reflexivity).
  - intros n Hn.
    each_required_field Hn ltac:(vm_compute; eexists; reflexivity).
  - intros n value type Hn. each_required_field Hn encoded_here.
  - reflexivity.
  - reflexivity.
  - apply surjective_pairing.
Defined.

(** C5 as stated fails on [sample_page] under [multi_select_types]: every
    required field has a value and a destination tag, yet [sync_page] raises
    [TypeError] while it encodes the number of ["Likes"] as a multi-select;
    [pages.create] is not called and the one call of the turn marks the page
    Failed. *)
Lemma mistyped_destination_blocks_the_creation :
  forallb (fun n => negb (is_missing sample_page n)) properties_to_sync
  = true /\
  forallb (fun n => bool_decide (is_Some (multi_select_types !! n)))
          properties_to_sync = true /\
  sync_page sample_repr (replay [Ok created_page; Ok updated_page])
            sample_page slave_db multi_select_types empty_world
  = (Raise TypeError, empty_world) /\
  issued empty_world
    (snd (process_page sample_repr sample_message
            (replay [Ok updated_page]) 1 (PyList [sample_page]) sample_page
            slave_db multi_select_types empty_world))
  = [Event (mark (PyStr "page-1") "Failed") (Ok updated_page)].
Proof. repeat split; vm_compute; reflexivity. Qed.

(** C6 (amended) with a cap of two on two pages that hold three results. *)
Lemma get_master_pages_collects_witness :
  exists out w',
    get_master_pages (replay [Ok (response_of first_results);
                              Ok (response_of last_results)])
                     2 master_db (Some 2) empty_world
    = Some (Ok (PyList out), w') /\
    out = firstn (Z.to_nat 2) (all_results [first_results; last_results]) /\
    (forall n, Some 2 = Some n ->
       Z.of_nat (length out)
       = Z.min n (Z.of_nat (length (all_results
                                      [first_results; last_results])))) /\
    Forall (filtered_query master_db) (issued empty_world w').
Proof.
  apply (get_master_pages_collects
           (replay [Ok (response_of first_results);
                    Ok (response_of last_results)])
           master_db (Some 2) first_results [last_results] empty_world 2).
  - reflexivity.
  - intros j p Hj h query Hlen. unfold replay. rewrite Hlen.
    destruct j as [|[|j]]; simpl in Hj; inversion Hj; reflexivity.
  - simpl. lia.
  - intros n [= <-]. simpl. lia.
Defined.

(** C6 as stated fails with a cap of one when the first page, which is also
    the last, holds two results: both are returned. *)
Lemma first_page_is_not_truncated :
  fst <$> get_master_pages (replay [Ok (response_of long_results)])
                           1 master_db (Some 1) empty_world
  = Some (Ok (PyList [sample_page; incomplete_page])) /\
  chained long_results [] = true.
Proof. split; vm_compute; reflexivity. Qed.

(** C7 at a select that holds the option ["Tech"] by its name alone. *)
Lemma encode_extract_round_trip_witness :
  exists value,
    extract_property_value encoded_page "Niche" = Ok value /\
    create_property_object sample_repr "Niche" value (PyStr "select")
    = Ok (PyDict [("select", PyDict [("name", PyStr "Tech")])]).
Proof.
  apply (encode_extract_round_trip sample_repr "select"
           (PyDict [("name", PyStr "Tech")]) encoded_page
           [("Niche", PyDict [("type", PyStr "select");
                              ("select", PyDict [("name", PyStr "Tech")])])]
           [("type", PyStr "select");
            ("select", PyDict [("name", PyStr "Tech")])]
           "Niche").
  - exists (PyStr "Tech"). reflexivity.
  - reflexivity.
  - reflexivity.
  - reflexivity.
  - reflexivity.
Defined.

(** C8 at [blank_page]: an absent field, an unset select, an empty
    multi-select, an empty title and an empty rich text. *)
Lemma extraction_of_absent_and_empty_witness :
  extract_property_value blank_page "Handle" = Ok PyNone /\
  extract_property_value blank_page "Niche" = Ok PyNone /\
  extract_property_value blank_page "Tags" = Ok (PyList []) /\
  extract_property_value blank_page "Name" = Ok (PyStr "") /\
  extract_property_value blank_page "Author" = Ok (PyStr "").
Proof.
  pose proof (fun name =>
    extraction_of_absent_and_empty blank_page _ name eq_refl) as H.
  split; [now apply (proj1 (H "Handle"))|].
  split; [now eapply (proj1 (proj2 (H "Niche") _ eq_refl))|].
  split; [now eapply (proj1 (proj2 (proj2 (H "Tags") _ eq_refl)))|].
  split; [now eapply (proj1 (proj2 (proj2 (proj2 (H "Name") _ eq_refl))))|].
  now eapply (proj2 (proj2 (proj2 (proj2 (H "Author") _ eq_refl)))).
Defined.

(** C9 at [sample_page]: the creation is accepted, the update to Synced
    times out, the update to Failed is accepted. *)
Lemma created_page_can_end_failed_witness :
  exists w',
    process_page sample_repr sample_message
      (replay [Ok created_page; Raise timeout; Ok updated_page]) 1
      (PyList [sample_page]) sample_page slave_db sample_types empty_world
    = (Ok tt, w') /\
    issued empty_world w'
    = [Event (create_in slave_db sample_new_properties) (Ok created_page);
       Event (mark (PyStr "page-1") "Synced") (Raise timeout);
       Event (mark (PyStr "page-1") "Failed") (Ok updated_page)].
Proof.
  apply (created_page_can_end_failed sample_repr sample_message
           (replay [Ok created_page; Raise timeout; Ok updated_page]) 1
           (PyList [sample_page]) sample_page slave_db sample_types
           empty_world (PyStr "Launch thread") (PyStr "page-1") 1
           sample_new_properties created_page updated_page timeout).
  - reflexivity.
  - reflexivity.
  - reflexivity.
  - vm_compute. reflexivity.
  - reflexivity.
  - reflexivity.
  - reflexivity.
Defined.

(** ** Instances of the further properties *)

(** X1 at the title of [sample_page], which comes in two segments. *)
Lemma text_extraction_concatenates_witness :
  extract_property_value sample_page "Name" = Ok (PyStr "Launch thread").
Proof.
  eapply (text_extraction_concatenates sample_page _ _ "Name" "title" _
           ["Launch "; "thread"]).
  - reflexivity.
  - reflexivity.
  - now left.
  - reflexivity.
  - reflexivity.
  - repeat constructor.
Defined.

(** X2 at [mention_page]: the second segment of the title is a mention. *)
Lemma text_extraction_needs_text_segments_witness :
  extract_property_value mention_page "Name" = Raise (KeyError "text").
Proof.
  eapply (text_extraction_needs_text_segments mention_page _ _ "Name" "title"
           [text_object "Thanks "] [text_object "!"] ["Thanks "]
           [("type", PyStr "mention");
            ("mention", PyDict [("type", PyStr "user")]);
            ("plain_text", PyStr "@Ada")]).
  - reflexivity.
  - reflexivity.
  - now left.
  - reflexivity.
  - reflexivity.
  - repeat constructor.
  - reflexivity.
Defined.

(** X3 at the two tags of [tagged_page]. *)
Lemma multi_select_extraction_lists_names_witness :
  extract_property_value tagged_page "Tags"
  = Ok (PyList [PyStr "Tech"; PyStr "News"]).
Proof.
  eapply (multi_select_extraction_lists_names tagged_page _ _ "Tags" _
           [PyStr "Tech"; PyStr "News"]).
  - reflexivity.
  - reflexivity.
  - reflexivity.
  - reflexivity.
  - repeat constructor.
Defined.

(** X4 for the name of a choice under a select. *)
Lemma encoding_is_read_back_witness :
  exists x,
    create_property_object sample_repr "Niche" (PyStr "Tech") (PyStr "select")
    = Ok (PyDict [("select", x)]) /\
    forall page props prop field,
      py_getitem page "properties" = Ok (PyDict props) ->
      dict_get field props = Some (PyDict prop) ->
      dict_get "type" prop = Some (PyStr "select") ->
      dict_get "select" prop = Some x ->
      extract_property_value page field = Ok (PyStr "Tech").
Proof.
  apply (encoding_is_read_back sample_repr "Niche" "select" (PyStr "Tech")).
  reflexivity.
Defined.

(** X5 at [people_page], whose ["Author"] is a person. *)
Lemma unsupported_source_type_blocks_the_page_witness :
  extract_property_value people_page "Author" = Ok PyNone /\
  forall slave pt w r w',
    sync_page sample_repr obliging people_page slave pt w = (r, w') ->
    trace w' = trace w /\ exists e, r = Raise e.
Proof.
  eapply (unsupported_source_type_blocks_the_page sample_repr obliging
           people_page (PyStr "people") _ _ "Author").
  - reflexivity.
  - reflexivity.
  - reflexivity.
  - reflexivity.
  - in_list.
Defined.

(** X7 for a number. *)
Lemma encoder_output_shape_witness :
  (PyDict [("number", PyInt 7)] = PyNone /\
   has_tag encoder_tags (PyStr "number") = false) \/
  (exists tag x,
     PyStr "number" = PyStr tag /\ tag ∈ encoder_tags /\
     PyDict [("number", PyInt 7)] = PyDict [(tag, x)]).
Proof.
  apply (encoder_output_shape sample_repr "Likes" (PyInt 7) (PyStr "number")).
  reflexivity.
Defined.

(** X8 for the number zero. *)
Lemma encoder_erases_false_values_witness :
  create_property_object sample_repr "Likes" (PyInt 0) (PyStr "title")
  = Ok (PyDict [("title", PyList [text_object ""])]) /\
  create_property_object sample_repr "Likes" (PyInt 0) (PyStr "rich_text")
  = Ok (PyDict [("rich_text", PyList [text_object ""])]) /\
  create_property_object sample_repr "Likes" (PyInt 0) (PyStr "select")
  = Ok (PyDict [("select", PyNone)]) /\
  create_property_object sample_repr "Likes" (PyInt 0) (PyStr "multi_select")
  = Ok (PyDict [("multi_select", PyList [])]) /\
  create_property_object sample_repr "Likes" (PyInt 0) (PyStr "date")
  = Ok (PyDict [("date", PyNone)]) /\
  create_property_object sample_repr "Likes" (PyInt 0) (PyStr "url")
  = Ok (PyDict [("url", PyNone)]) /\
  create_property_object sample_repr "Likes" (PyInt 0) (PyStr "number")
  = Ok (PyDict [("number", PyInt 0)]) /\
  create_property_object sample_repr "Likes" (PyInt 0) (PyStr "checkbox")
  = Ok (PyDict [("checkbox", PyInt 0)]).
Proof.
  apply (encoder_erases_false_values sample_repr "Likes" (PyInt 0)).
  - reflexivity.
  - discriminate.
Defined.

(** X10 at [sample_page] under [partial_types]: of the three fields of the
    schema, the two required ones are written. *)
Lemma submitted_keys_are_required_and_known_witness :
  dom partial_new_properties
  = list_to_set properties_to_sync ∩ dom partial_types /\
  dom partial_new_properties = {["Name"; "Likes"]}.
Proof.
  split.
  - apply (submitted_keys_are_required_and_known sample_repr obliging
             sample_page slave_db partial_types empty_world
             (snd (sync_page sample_repr obliging sample_page slave_db
                             partial_types empty_world))
             (fst (sync_page sample_repr obliging sample_page slave_db
                             partial_types empty_world))
             (PyDict [("database_id", slave_db)]) partial_new_properties
             (Ok updated_page)).
    + apply surjective_pairing.
    + vm_compute. constructor.
  - vm_compute. reflexivity.
Defined.

(** X11 at [sample_page], for which the one call is made. *)
Lemma sync_page_calls_at_most_once_witness :
  stdout (snd sample_run) = stdout empty_world /\
  ((issued empty_world (snd sample_run) = [] /\
    exists e, fst sample_run = Raise e) \/
   (exists new,
      issued empty_world (snd sample_run)
      = [Event (create_in slave_db new) (fst sample_run)] /\
      fst sample_run = steady (trace empty_world) (create_in slave_db new))).
Proof.
  apply (sync_page_calls_at_most_once sample_repr steady sample_page slave_db
           sample_types empty_world).
  apply surjective_pairing.
Defined.

(** X12 on a complete and an incomplete page, with a collaborator that
    accepts every call: the first ends Synced, the second Failed. *)
Lemma every_page_gets_one_final_status_witness :
  exists w',
    process_pages sample_repr sample_message obliging 1
                  (PyList [sample_page; incomplete_page])
                  [sample_page; incomplete_page] slave_db sample_types
                  empty_world
    = (Ok tt, w') /\
    map fst (accepted_updates (issued empty_world w'))
    = [PyStr "page-1"; PyStr "page-2"] /\
    Forall (fun update =>
              snd update = status_properties "Synced" \/
              snd update = status_properties "Failed")
           (accepted_updates (issued empty_world w')).
Proof.
  apply (every_page_gets_one_final_status sample_repr sample_message obliging
           1 (PyList [sample_page; incomplete_page]) slave_db
           [sample_page; incomplete_page] [PyStr "page-1"; PyStr "page-2"]
           sample_types empty_world).
  - repeat constructor.
  - intros pid h _. eexists. reflexivity.
Defined.

(** X13 on a selection of three records that comes in two pages. *)
Lemma selection_only_queries_witness :
  exists r w',
    get_master_pages paged 2 master_db (Some 3) empty_world = Some (r, w') /\
    length (issued empty_world w') = 2%nat /\
    Forall (selection_query master_db (Some 3)) (issued empty_world w') /\
    Forall (fun ev => is_write ev = false) (issued empty_world w').
Proof.
  eexists _, _. split; [vm_compute; reflexivity|]. split; [reflexivity|].
  eapply (selection_only_queries paged 2 master_db (Some 3) empty_world).
  vm_compute. reflexivity.
Defined.

(** X14 with a limit of one and a first page of two records. *)
Lemma first_page_is_returned_whole_witness :
  get_master_pages (replay [Ok (response_of long_results)]) 1 master_db
                   (Some 1) empty_world
  = Some (Ok (PyList [sample_page; incomplete_page]),
          {| trace := [Event (DatabasesQuery master_db (initial_query (Some 1)))
                             (Ok (response_of long_results))];
             stdout := ["Total pages retrieved: 2"] |}).
Proof.
  apply (first_page_is_returned_whole (replay [Ok (response_of long_results)])
           0 master_db (Some 1) long_results empty_world).
  - reflexivity.
  - right. exists 1. split; [reflexivity|]. simpl. lia.
Defined.

(** X15 on a response that holds nothing but its kind. *)
Lemma silent_response_ends_the_selection_witness :
  get_master_pages (replay [Ok (PyDict silent_response)]) 1 master_db None
                   empty_world
  = Some (Ok (PyList []),
          {| trace := [Event (DatabasesQuery master_db (initial_query None))
                             (Ok (PyDict silent_response))];
             stdout := ["Total pages retrieved: 0"] |}).
Proof.
  apply (silent_response_ends_the_selection
           (replay [Ok (PyDict silent_response)]) 0 master_db None
           silent_response [] empty_world).
  - reflexivity.
  - reflexivity.
  - reflexivity.
Defined.

(** X16 without a limit. *)
Lemma selection_needs_a_last_page_witness :
  get_master_pages endless 5 master_db None empty_world = None.
Proof.
  apply (selection_needs_a_last_page endless 5 master_db None empty_world).
  - intros n Hn. discriminate Hn.
  - intros h query. exists first_results. repeat split. now left.
Defined.

(** X17 when the second query times out. *)
Lemma selection_prints_its_count_witness :
  exists w',
    get_master_pages interrupted 2 master_db None empty_world
    = Some (Raise timeout, w') /\
    stdout w' = stdout empty_world.
Proof.
  eexists. split; [vm_compute; reflexivity|].
  apply (selection_prints_its_count interrupted 2 master_db None empty_world _
           (Raise timeout)).
  vm_compute. reflexivity.
Defined.

(** X18 on [sample_database]. *)
Lemma schema_map_holds_declared_types_witness :
  issued empty_world (snd (map_property_types steady slave_db empty_world))
  = [Event (DatabasesRetrieve slave_db) (Ok sample_database)] /\
  (forall pt name,
     fst (map_property_types steady slave_db empty_world) = Ok pt ->
     pt !! name = dict_get name sample_database_properties ≫= declared_type) /\
  (forall name prop,
     (name, prop) ∈ sample_database_properties ->
     declared_type prop = None ->
     exists e, fst (map_property_types steady slave_db empty_world) = Raise e).
Proof.
  apply (schema_map_holds_declared_types steady slave_db sample_database
           sample_database_properties empty_world).
  - reflexivity.
  - reflexivity.
  - apply (bool_decide_unpack _). vm_compute. reflexivity.
  - apply surjective_pairing.
Defined.

(** X19 when the retrieval of the schema times out. *)
Lemma failure_before_the_loop_is_fatal_witness :
  exists w',
    main sample_repr sample_message (replay [Raise timeout]) 1 None master_db
         slave_db empty_world
    = Some (Raise timeout, w') /\
    stdout w' = stdout empty_world /\
    Forall (fun ev => is_write ev = false) (issued empty_world w').
Proof.
  apply (failure_before_the_loop_is_fatal sample_repr sample_message
           (replay [Raise timeout]) 1 None master_db slave_db empty_world
           timeout).
  left. reflexivity.
Defined.

(** X20 with a collaborator that finds nothing to select. *)
Lemma empty_selection_writes_nothing_witness :
  exists w',
    main sample_repr sample_message idle 1 None master_db slave_db empty_world
    = Some (Ok tt, w') /\
    stdout w'
    = ["Total pages retrieved: 0"; "No pages need to be synced."] /\
    Forall (fun ev => is_write ev = false) (issued empty_world w').
Proof.
  apply (empty_selection_writes_nothing sample_repr sample_message idle 1 None
           master_db slave_db (PyList []) sample_types empty_world
           {| trace := [Event (DatabasesRetrieve slave_db)
                              (Ok sample_database)];
              stdout := [] |}
           {| trace := [Event (DatabasesRetrieve slave_db)
                              (Ok sample_database);
                        Event (DatabasesQuery master_db (initial_query None))
                              (Ok (response_of no_results))];
              stdout := ["Total pages retrieved: 0"] |}).
  - vm_compute. reflexivity.
  - vm_compute. reflexivity.
  - reflexivity.
Defined.

(** X21 on a selection of a complete and an incomplete page. *)
Lemma run_completes_despite_page_failures_witness :
  exists w',
    main sample_repr sample_message steady 1 None master_db slave_db
         empty_world
    = Some (Ok tt, w') /\
    map fst (accepted_updates (issued selected w'))
    = [PyStr "page-1"; PyStr "page-2"] /\
    last (stdout w') = Some "Sync completed. 2 pages processed.".
Proof.
  apply (run_completes_despite_page_failures sample_repr sample_message steady
           1 None master_db slave_db sample_page [incomplete_page]
           [PyStr "page-1"; PyStr "page-2"] sample_types empty_world
           schema_fetched).
  - vm_compute. reflexivity.
  - vm_compute. reflexivity.
  - repeat constructor.
  - intros pid h _. eexists. reflexivity.
Defined.

(** X22 on a selection of a complete and an incomplete page. *)
Lemma run_writes_only_for_selected_pages_witness :
  exists r w',
    main sample_repr sample_message steady 1 None master_db slave_db
         empty_world
    = Some (r, w') /\
    Forall (fun ev => exists page,
              page ∈ [sample_page; incomplete_page] /\
              page_write slave_db page ev)
           (issued selected w').
Proof.
  eexists _, _. split; [vm_compute; reflexivity|].
  eapply (run_writes_only_for_selected_pages sample_repr sample_message steady
            1 None master_db slave_db [sample_page; incomplete_page]
            sample_types empty_world schema_fetched selected).
  - vm_compute. reflexivity.
  - vm_compute. reflexivity.
  - vm_compute. reflexivity.
Defined.

(** X24 during an outage: the creation for the first page times out, the
    update to Failed times out in turn, and the second page is not
    attempted. *)
Lemma failed_update_escapes_witness :
  exists w2,
    process_pages sample_repr sample_message
                  (replay [Raise timeout; Raise timeout]) 1
                  (PyList [sample_page; incomplete_page])
                  [sample_page; incomplete_page] slave_db sample_types
                  empty_world
    = (Raise timeout, w2) /\
    trace w2
    = [Event (create_in slave_db sample_new_properties) (Raise timeout);
       Event (mark (PyStr "page-1") "Failed") (Raise timeout)].
Proof.
  apply (failed_update_escapes sample_repr sample_message
           (replay [Raise timeout; Raise timeout]) 1
           (PyList [sample_page; incomplete_page]) sample_page slave_db
           [incomplete_page] sample_types empty_world
           {| trace := [Event (create_in slave_db sample_new_properties)
                              (Raise timeout)];
              stdout := ["Syncing page 1/2: Launch thread"] |}
           timeout timeout (PyStr "page-1")).
  - vm_compute. reflexivity.
  - reflexivity.
  - reflexivity.
Defined.
